(** * lunar_vn: Vietnamese lunar calendar conversion (Ho Ngoc Duc's algorithm)

    A shallow embedding of [src/lunar_vn/core.py].

    Data model.
    - Python [int] is [Z].
    - Python [float] is modelled by exact rationals [Q].  Every quotient
      [_int_floor(n / c)] of the Julian-day arithmetic divides an integer by a
      small integer constant; binary64 division is correctly rounded, so its
      floor is the floor of the exact quotient as long as [|n| < 2^53].  The
      statements on day numbers are therefore made for years of magnitude at
      most [YEAR_BOUND] and day numbers of magnitude at most [JD_BOUND],
      where every dividend is below [2^53] ([jd_from_date_dividends_exact],
      [jd_to_date_dividends_exact]); beyond, the code may floor a quotient to
      a neighbouring integer or raise OverflowError.  The decimal constants
      [29.530588853] and [2415021.076998695] are kept as exact decimals; the
      indices computed from them agree with the binary64 ones for the day
      numbers [datetime.date] can hold, and no statement depends on their
      value.
    - [get_new_moon_day] and [get_sun_longitude] are truncated trigonometric
      series evaluated in binary64 with [math.sin].  They are the two
      parameters of section [Lunar]: everything proved there holds for whatever
      integer-valued functions they are.
    - [functools.lru_cache] memoises pure functions and is not observable.
    - [raise ValueError(...)] is an explicit error result. *)

From Stdlib Require Import ZArith QArith Qround Lia Bool List.
Import ListNotations.
Local Open Scope Z_scope.

(** ** Floor and the int-to-float conversion *)

(** [_int_floor(x) = math.floor(x)]. *)
Definition _int_floor (x : Q) : Z := Qfloor x.

(** The implicit conversion of an [int] operand of [/], [+] or [-].  Exact
    here; in the code it is exact for [|n| < 2^53], rounds beyond, and raises
    OverflowError past the binary64 range. *)
Definition float (n : Z) : Q := inject_Z n.

(** ** JDN converter *)

Definition jd_from_date (dd mm yy : Z) : Z :=
  let a := _int_floor (float (14 - mm) / 12) in
  let y := yy + 4800 - a in
  let m := mm + 12 * a - 3 in
  let jd :=
    dd
    + _int_floor (float (153 * m + 2) / 5)
    + 365 * y
    + _int_floor (float y / 4)
    - _int_floor (float y / 100)
    + _int_floor (float y / 400)
    - 32045 in
  let jd :=
    if jd <? 2299161
    then dd + _int_floor (float (153 * m + 2) / 5) + 365 * y
         + _int_floor (float y / 4) - 32083
    else jd in
  jd.

Definition jd_to_date (jd : Z) : Z * Z * Z :=
  let '(b, c) :=
    if jd >? 2299160 then
      let a := jd + 32044 in
      let b := _int_floor (float (4 * a + 3) / 146097) in
      let c := a - _int_floor (float (b * 146097) / 4) in
      (b, c)
    else
      (0, jd + 32082) in
  let d := _int_floor (float (4 * c + 3) / 1461) in
  let e := c - _int_floor (float (1461 * d) / 4) in
  let m := _int_floor (float (5 * e + 2) / 153) in
  let day := e - _int_floor (float (153 * m + 2) / 5) + 1 in
  let month := m + 3 - 12 * _int_floor (float m / 10) in
  let year := b * 100 + d - 4800 + _int_floor (float m / 10) in
  (day, month, year).

(** ** The range in which the float quotients are exact

    [float] and [/] above are exact, where the code rounds to binary64.  A
    quotient [n / c] of an integer by a small positive integer constant is
    correctly rounded, so its floor is the floor of the exact quotient
    whenever [|n| < 2^53]; beyond, the code may floor to a neighbouring
    integer.  The dividends of the two converters are listed here, and the
    statements on day numbers are made within [YEAR_BOUND] and [JD_BOUND],
    where all of them are below [2^53]. *)

Definition binary64_exact (n : Z) : bool := Z.abs n <? 2 ^ 53.

(** The dividends of the [/] of [jd_from_date], in order. *)
Definition jd_from_date_dividends (dd mm yy : Z) : list Z :=
  let a := _int_floor (float (14 - mm) / 12) in
  let y := yy + 4800 - a in
  let m := mm + 12 * a - 3 in
  [14 - mm; 153 * m + 2; y; y; y; 153 * m + 2; y].

(** The dividends of the [/] of [jd_to_date], in order. *)
Definition jd_to_date_dividends (jd : Z) : list Z :=
  let '(b, c, first) :=
    if jd >? 2299160 then
      let a := jd + 32044 in
      let b := _int_floor (float (4 * a + 3) / 146097) in
      let c := a - _int_floor (float (b * 146097) / 4) in
      (b, c, [4 * a + 3; b * 146097])
    else
      (0, jd + 32082, []) in
  let d := _int_floor (float (4 * c + 3) / 1461) in
  let e := c - _int_floor (float (1461 * d) / 4) in
  let m := _int_floor (float (5 * e + 2) / 153) in
  first ++ [4 * c + 3; 1461 * d; 5 * e + 2; 153 * m + 2; m; m].

(** Years and day numbers within which every dividend is below [2^53]. *)
Definition YEAR_BOUND : Z := 5 * 10 ^ 12.
Definition JD_BOUND : Z := 2 * 10 ^ 15.

(** ** Calendar rules

    The civil calendar the converter implements: Julian up to 4 October 1582,
    Gregorian from 15 October 1582; the ten dates in between do not exist. *)

Definition is_leap_julian (y : Z) : bool := y mod 4 =? 0.

Definition is_leap_gregorian (y : Z) : bool :=
  (y mod 4 =? 0) && (negb (y mod 100 =? 0) || (y mod 400 =? 0)).

Definition days_in_month (leap : bool) (m : Z) : Z :=
  if m =? 2 then (if leap then 29 else 28)
  else if (m =? 4) || (m =? 6) || (m =? 9) || (m =? 11) then 30
  else 31.

(** Lexicographic order on (year, month, day). *)
Definition date_leb (d1 m1 y1 d2 m2 y2 : Z) : bool :=
  (y1 <? y2) || ((y1 =? y2) && ((m1 <? m2) || ((m1 =? m2) && (d1 <=? d2)))).

Definition valid_julian (dd mm yy : Z) : bool :=
  (1 <=? mm) && (mm <=? 12) && (1 <=? dd)
  && (dd <=? days_in_month (is_leap_julian yy) mm).

Definition valid_gregorian (dd mm yy : Z) : bool :=
  (1 <=? mm) && (mm <=? 12) && (1 <=? dd)
  && (dd <=? days_in_month (is_leap_gregorian yy) mm).

Definition valid_date (dd mm yy : Z) : bool :=
  (valid_julian dd mm yy && date_leb dd mm yy 4 10 1582)
  || (valid_gregorian dd mm yy && date_leb 15 10 1582 dd mm yy).

(** ** Results of a call

    A call returns a value, raises, or (in the model only) runs out of the
    fuel that bounds the [while True] loop of [get_leap_month_offset]. *)

Inductive exn : Type :=
| InvalidLeapFlag  (* ValueError("Invalid lunar leap flag for given lunar month/year") *)
| DateValueError.  (* ValueError raised by datetime.date(year, month, day) *)

Inductive outcome (A : Type) : Type :=
| Return (a : A)
| Raise (e : exn)
| OutOfFuel.

Arguments Return {A} a.
Arguments Raise {A} e.
Arguments OutOfFuel {A}.

Definition bind {A B : Type} (c : outcome A) (k : A -> outcome B) : outcome B :=
  match c with
  | Return a => k a
  | Raise e => Raise e
  | OutOfFuel => OutOfFuel
  end.

Notation "x <- c ;; k" := (bind c (fun x => k))
  (at level 61, c at next level, right associativity).
Notation "' p <- c ;; k" := (bind c (fun x => match x with p => k end))
  (at level 61, p pattern, c at next level, right associativity).

(** ** Dates *)

(** [datetime.date]: the constructor accepts exactly the dates of the
    proleptic Gregorian calendar of the years 1..9999 and raises [ValueError]
    otherwise (Python standard library). *)
Record date : Type := mk_date { date_year : Z; date_month : Z; date_day : Z }.

Definition MINYEAR : Z := 1.
Definition MAXYEAR : Z := 9999.

Definition dt_date (yy mm dd : Z) : outcome date :=
  if (MINYEAR <=? yy) && (yy <=? MAXYEAR) && valid_gregorian dd mm yy
  then Return (mk_date yy mm dd)
  else Raise DateValueError.

Record LunarDate : Type := mkLunarDate {
  day : Z;
  month : Z;
  year : Z;
  leap : bool  (* True if leap month *)
}.

(** [DateLike = Union[date, Tuple[int, int, int]]]. *)
Inductive DateLike : Type :=
| DateObject (d : date)
| DateTuple (dd mm yy : Z).

(** ** Lunar calendar, over the two astronomical primitives *)

Section Lunar.

(** [get_new_moon_day(k, time_zone)]: day (JDN) of the k-th new moon. *)
Variable get_new_moon_day : Z -> Q -> Z.
(** [get_sun_longitude(jdn, time_zone)]: sun longitude sector. *)
Variable get_sun_longitude : Z -> Q -> Z.

Definition get_lunar_month11 (yy : Z) (time_zone : Q) : Z :=
  let off := jd_from_date 31 12 yy - 2415021 in
  let k := _int_floor (float off / 29.530588853) in
  let nm := get_new_moon_day k time_zone in
  let sun_long := get_sun_longitude nm time_zone in
  if sun_long >=? 9 then get_new_moon_day (k - 1) time_zone else nm.

(** The body of [while True] in [get_leap_month_offset]; [i] and [arc] are
    the loop variables on entry, the result is [i] at [break]. *)
Fixpoint leap_month_scan (fuel : nat) (k : Z) (time_zone : Q) (i arc : Z)
  : outcome Z :=
  match fuel with
  | O => OutOfFuel
  | S fuel' =>
      let last := arc in
      let i := i + 1 in
      let arc :=
        get_sun_longitude (get_new_moon_day (k + i) time_zone) time_zone in
      if (arc =? last) || (i >=? 14) then Return i
      else leap_month_scan fuel' k time_zone i arc
  end.

(** Sector of the [j]-th new moon after index [k]. *)
Definition new_moon_sector (k : Z) (time_zone : Q) (j : Z) : Z :=
  get_sun_longitude (get_new_moon_day (k + j) time_zone) time_zone.

(** [k] of [get_leap_month_offset], in exact decimal arithmetic.  The code
    computes it in binary64: the two agree for the anchors of the years
    [datetime.date] can hold and may differ by one for far larger anchors.
    The statements made with it hold for every value of the index. *)
Definition leap_month_index (a11 : Z) : Z :=
  _int_floor ((float a11 - 2415021.076998695) / 29.530588853 + 0.5).

Definition get_leap_month_offset (fuel : nat) (a11 : Z) (time_zone : Q)
  : outcome Z :=
  let k := leap_month_index a11 in
  let i := 1 in
  let arc :=
    get_sun_longitude (get_new_moon_day (k + i) time_zone) time_zone in
  i <- leap_month_scan fuel k time_zone i arc ;;
  Return (i - 1).

Definition convert_solar_to_lunar (fuel : nat) (dd mm yy : Z) (time_zone : Q)
  : outcome LunarDate :=
  let day_number := jd_from_date dd mm yy in
  let k :=
    _int_floor ((float day_number - 2415021.076998695) / 29.530588853) in
  let month_start := get_new_moon_day (k + 1) time_zone in
  let month_start :=
    if month_start >? day_number then get_new_moon_day k time_zone
    else month_start in
  let a11 := get_lunar_month11 yy time_zone in
  let b11 := a11 in
  let '(lunar_year, a11, b11) :=
    if a11 >=? month_start
    then (yy, get_lunar_month11 (yy - 1) time_zone, b11)
    else (yy + 1, a11, get_lunar_month11 (yy + 1) time_zone) in
  let lunar_day := day_number - month_start + 1 in
  let diff := _int_floor (float (month_start - a11) / 29) in
  let lunar_leap := 0 in
  let lunar_month := diff + 11 in
  '(lunar_month, lunar_leap) <-
    (if b11 - a11 >? 365 then
       leap_month_diff <- get_leap_month_offset fuel a11 time_zone ;;
       Return
         (if diff >=? leap_month_diff
          then (diff + 10, if diff =? leap_month_diff then 1 else lunar_leap)
          else (lunar_month, lunar_leap))
     else Return (lunar_month, lunar_leap)) ;;
  let lunar_month :=
    if lunar_month >? 12 then lunar_month - 12 else lunar_month in
  let lunar_year :=
    if (lunar_month >=? 11) && (diff <? 4) then lunar_year - 1
    else lunar_year in
  Return (mkLunarDate lunar_day lunar_month lunar_year
            (negb (lunar_leap =? 0))).

(** The month-11 anchors [(a11, b11)] bracketing a lunar month. *)
Definition month11_anchors (lunar_month lunar_year : Z) (time_zone : Q)
  : Z * Z :=
  if lunar_month <? 11
  then (get_lunar_month11 (lunar_year - 1) time_zone,
        get_lunar_month11 lunar_year time_zone)
  else (get_lunar_month11 lunar_year time_zone,
        get_lunar_month11 (lunar_year + 1) time_zone).

Definition convert_lunar_to_solar
    (fuel : nat) (lunar_day lunar_month lunar_year lunar_leap : Z)
    (time_zone : Q) : outcome date :=
  let '(a11, b11) := month11_anchors lunar_month lunar_year time_zone in
  let off := lunar_month - 11 in
  let off := if off <? 0 then off + 12 else off in
  off <-
    (if b11 - a11 >? 365 then
       leap_off <- get_leap_month_offset fuel a11 time_zone ;;
       let leap_month := leap_off - 2 in
       let leap_month :=
         if leap_month <? 0 then leap_month + 12 else leap_month in
       if negb (lunar_leap =? 0) && negb (lunar_month =? leap_month)
       then Raise InvalidLeapFlag
       else if negb (lunar_leap =? 0) || (off >=? leap_off)
            then Return (off + 1)
            else Return off
     else Return off) ;;
  let k :=
    _int_floor (0.5 + (float a11 - 2415021.076998695) / 29.530588853) in
  let month_start := get_new_moon_day (k + off) time_zone in
  let '(dd, mm, yy) := jd_to_date (month_start + lunar_day - 1) in
  dt_date yy mm dd.

(** Convenience API *)

Definition solar_to_lunar (fuel : nat) (d : DateLike) (time_zone : Q)
  : outcome LunarDate :=
  match d with
  | DateTuple dd mm yy => convert_solar_to_lunar fuel dd mm yy time_zone
  | DateObject d =>
      convert_solar_to_lunar fuel (date_day d) (date_month d) (date_year d)
        time_zone
  end.

Definition lunar_to_solar (fuel : nat) (lunar : LunarDate) (time_zone : Q)
  : outcome date :=
  convert_lunar_to_solar fuel (day lunar) (month lunar) (year lunar)
    (if leap lunar then 1 else 0) time_zone.

End Lunar.

(** The default [time_zone = 7.0]. *)
Definition TZ_VN : Q := 7.0.

(** ** Notions used in the statements *)

(** The last two lines of [convert_lunar_to_solar]: the date object built
    from a day number. *)
Definition solar_of_jd (jd : Z) : outcome date :=
  let '(dd, mm, yy) := jd_to_date jd in
  dt_date yy mm dd.

(** [off] of [convert_lunar_to_solar] before the leap step. *)
Definition month_offset (lunar_month : Z) : Z :=
  let off := lunar_month - 11 in
  if off <? 0 then off + 12 else off.

(** [leap_month] of [convert_lunar_to_solar]. *)
Definition leap_month_of_offset (leap_off : Z) : Z :=
  let leap_month := leap_off - 2 in
  if leap_month <? 0 then leap_month + 12 else leap_month.

(** [k] of [convert_lunar_to_solar]. *)
Definition lunar_index (a11 : Z) : Z :=
  _int_floor (0.5 + (float a11 - 2415021.076998695) / 29.530588853).

(** The guard of [raise ValueError] in [convert_lunar_to_solar]. *)
Definition leap_flag_rejected
    (a11 b11 leap_off lunar_month lunar_leap : Z) : bool :=
  (b11 - a11 >? 365) && negb (lunar_leap =? 0)
  && negb (lunar_month =? leap_month_of_offset leap_off).

(** [off] of [convert_lunar_to_solar] after the leap step. *)
Definition leap_adjusted_offset
    (a11 b11 leap_off lunar_month lunar_leap : Z) : Z :=
  let off := month_offset lunar_month in
  if (b11 - a11 >? 365)
     && (negb (lunar_leap =? 0) || (off >=? leap_off))
  then off + 1 else off.

(** The intermediate values of [convert_solar_to_lunar], named so that
    statements can refer to them. *)

Section SolarToLunarState.

Variable get_new_moon_day : Z -> Q -> Z.
Variable get_sun_longitude : Z -> Q -> Z.

(** [month_start]: the new moon of index [k + 1], or of index [k] when the
    former is after the day. *)
Definition solar_month_start (day_number : Z) (time_zone : Q) : Z :=
  let k :=
    _int_floor ((float day_number - 2415021.076998695) / 29.530588853) in
  let month_start := get_new_moon_day (k + 1) time_zone in
  if month_start >? day_number then get_new_moon_day k time_zone
  else month_start.

(** [(lunar_year, a11, b11)] after the choice of the anchors. *)
Definition solar_anchors (yy month_start : Z) (time_zone : Q) : Z * Z * Z :=
  let a11 := get_lunar_month11 get_new_moon_day get_sun_longitude yy
               time_zone in
  let b11 := a11 in
  if a11 >=? month_start
  then (yy, get_lunar_month11 get_new_moon_day get_sun_longitude (yy - 1)
              time_zone, b11)
  else (yy + 1, a11,
        get_lunar_month11 get_new_moon_day get_sun_longitude (yy + 1)
          time_zone).

End SolarToLunarState.

(** [diff]: whole lunations from the anchor to the month start. *)
Definition lunation_diff (month_start a11 : Z) : Z :=
  _int_floor (float (month_start - a11) / 29).

(** [lunar_month] of [convert_solar_to_lunar] after the leap step, before
    it is brought back under 13. *)
Definition leap_adjusted_month (a11 b11 leap_off diff : Z) : Z :=
  if (b11 - a11 >? 365) && (diff >=? leap_off) then diff + 10 else diff + 11.

(** [if lunar_month > 12: lunar_month -= 12]. *)
Definition wrap_month (lunar_month : Z) : Z :=
  if lunar_month >? 12 then lunar_month - 12 else lunar_month.

(** Days from 1 March of the March-based year 0 to 1 March of year [y] in
    the Gregorian count of [jd_from_date]. *)
Definition gregorian_days (y : Z) : Z := 365 * y + y / 4 - y / 100 + y / 400.

(** ** A reference instance of the primitives

    The mean-motion terms of the two series (the periodic [sin] corrections
    and the secular terms dropped), evaluated exactly.  It only serves to run
    the converters on concrete inputs. *)

Definition mean_new_moon_day (k : Z) (time_zone : Q) : Z :=
  _int_floor (2415020.75933 + 29.53058868 * float k + 0.5 + time_zone / 24).

Definition mean_sun_longitude (jdn : Z) (time_zone : Q) : Z :=
  let T := ((float jdn - 2451545.5 - time_zone / 24) / 36525)%Q in
  let L0 := (280.46645 + 36000.76983 * T)%Q in
  let L := (L0 - 360 * float (_int_floor (L0 / 360)))%Q in
  _int_floor (L / 30).

(** ** Integer-only forms of the converters, used in the proofs *)

Definition jd_from_date_Z (dd mm yy : Z) : Z :=
  let a := (14 - mm) / 12 in
  let y := yy + 4800 - a in
  let m := mm + 12 * a - 3 in
  let jd := dd + (153 * m + 2) / 5 + 365 * y + y / 4 - y / 100 + y / 400
            - 32045 in
  if jd <? 2299161
  then dd + (153 * m + 2) / 5 + 365 * y + y / 4 - 32083
  else jd.

Definition julian_ymd (c : Z) (b : Z) : Z * Z * Z :=
  let d := (4 * c + 3) / 1461 in
  let e := c - (1461 * d) / 4 in
  let m := (5 * e + 2) / 153 in
  (e - (153 * m + 2) / 5 + 1, m + 3 - 12 * (m / 10),
   b * 100 + d - 4800 + m / 10).

Definition jd_to_date_Z (jd : Z) : Z * Z * Z :=
  if 2299160 <? jd then
    let a := jd + 32044 in
    let b := (4 * a + 3) / 146097 in
    julian_ymd (a - (b * 146097) / 4) b
  else julian_ymd (jd + 32082) 0.

(** ** March-based arithmetic behind both converters

    With the year starting on 1 March, [m] in 0..11 counts months from March,
    [(153 * m + 2) / 5] is the number of days before month [m], and the leap
    day is the last day of the year. *)

Definition days_before (m : Z) : Z := (153 * m + 2) / 5.

(** [dd] is a day of the March-based month [m]; [leap] says whether the
    February closing this March-based year has 29 days. *)
Definition march_day_ok (leap : bool) (m dd : Z) : Prop :=
  0 <= m <= 11 /\ 1 <= dd /\
  days_before m + dd - 1 <=
    (if m =? 11 then 364 + (if leap then 1 else 0)
     else days_before (m + 1) - 1).

(** * Proofs *)

(** ** Lemmas on the floor model *)

Ltac zdiv := Z.to_euclidean_division_equations; lia.

Lemma int_floor_div (a : Z) (p : positive) :
  _int_floor (float a / (Zpos p # 1)) = a / Zpos p.
Proof.
  unfold _int_floor, float, Qfloor, Qdiv, Qmult, Qinv, inject_Z; simpl.
  rewrite Z.mul_1_r. reflexivity.
Qed.

Lemma jd_from_date_Z_eq dd mm yy :
  jd_from_date dd mm yy = jd_from_date_Z dd mm yy.
Proof.
  unfold jd_from_date, jd_from_date_Z.
  rewrite !int_floor_div. reflexivity.
Qed.

Lemma jd_to_date_Z_eq jd : jd_to_date jd = jd_to_date_Z jd.
Proof.
  unfold jd_to_date, jd_to_date_Z, julian_ymd.
  rewrite Z.gtb_ltb.
  destruct (2299160 <? jd); rewrite !int_floor_div; reflexivity.
Qed.

(** ** Dividends below 2^53 *)

Lemma binary64_exact_intro (n : Z) :
  - 2 ^ 53 < n < 2 ^ 53 -> binary64_exact n = true.
Proof. intros H. unfold binary64_exact. apply Z.ltb_lt. lia. Qed.

Lemma jd_from_date_dividends_exact (dd mm yy : Z) :
  1 <= mm <= 12 -> Z.abs yy <= YEAR_BOUND ->
  forallb binary64_exact (jd_from_date_dividends dd mm yy) = true.
Proof.
  intros Hm Hy. unfold YEAR_BOUND in Hy.
  unfold jd_from_date_dividends. rewrite !int_floor_div. cbv zeta.
  change (2 ^ 53) with 9007199254740992 in *.
  change (5 * 10 ^ 12) with 5000000000000 in Hy.
  cbn [forallb]. unfold binary64_exact.
  change (2 ^ 53) with 9007199254740992.
  repeat (apply andb_true_intro; split); try reflexivity;
    apply Z.ltb_lt; zdiv.
Qed.

Lemma jd_to_date_dividends_exact (jd : Z) :
  Z.abs jd <= JD_BOUND ->
  forallb binary64_exact (jd_to_date_dividends jd) = true.
Proof.
  intros Hjd. unfold JD_BOUND in Hjd.
  change (2 * 10 ^ 15) with 2000000000000000 in Hjd.
  unfold jd_to_date_dividends. rewrite Z.gtb_ltb.
  destruct (Z.ltb_spec 2299160 jd); rewrite !int_floor_div; cbv zeta;
    cbn [forallb app]; unfold binary64_exact;
    change (2 ^ 53) with 9007199254740992;
    repeat (apply andb_true_intro; split); try reflexivity;
    apply Z.ltb_lt; zdiv.
Qed.

(** The day number of a date within [YEAR_BOUND] is well within [JD_BOUND]. *)
Lemma jd_from_date_Z_bound (dd mm yy : Z) :
  1 <= mm <= 12 -> 1 <= dd <= 31 -> Z.abs yy <= YEAR_BOUND ->
  Z.abs (jd_from_date_Z dd mm yy) <= JD_BOUND - 10 ^ 14.
Proof.
  intros Hm Hd Hy. unfold YEAR_BOUND in Hy. unfold JD_BOUND.
  change (5 * 10 ^ 12) with 5000000000000 in Hy.
  change (2 * 10 ^ 15 - 10 ^ 14) with 1900000000000000.
  unfold jd_from_date_Z. cbv zeta.
  destruct (_ <? 2299161); zdiv.
Qed.

Ltac split_month m :=
  let H := fresh "Hcase" in
  assert (H : m = 0 \/ m = 1 \/ m = 2 \/ m = 3 \/ m = 4 \/ m = 5 \/ m = 6
              \/ m = 7 \/ m = 8 \/ m = 9 \/ m = 10 \/ m = 11) by lia;
  destruct H as [-> | [-> | [-> | [-> | [-> | [-> | [-> | [-> | [-> | [->
                | [-> | ->]]]]]]]]]]].

Lemma quarter_1461 (y : Z) : (1461 * y) / 4 = 365 * y + y / 4.
Proof. zdiv. Qed.

Lemma quarter_146097 (c : Z) : (c * 146097) / 4 = 36524 * c + c / 4.
Proof. zdiv. Qed.

Lemma year_of_days (y doy : Z) :
  0 <= doy <= 364 + (if y mod 4 =? 3 then 1 else 0) ->
  (4 * (doy + 365 * y + y / 4) + 3) / 1461 = y.
Proof.
  intros H.
  pose proof (Z.div_mod y 4 ltac:(lia)) as E.
  pose proof (Z.mod_pos_bound y 4 ltac:(lia)) as B.
  symmetry. apply Z.div_unique with (r := 4 * doy + 3 - y mod 4).
  - left. destruct (Z.eqb_spec (y mod 4) 3); lia.
  - lia.
Qed.

Lemma century_of_days (c x : Z) :
  0 <= x <= 36523 + (if c mod 4 =? 3 then 1 else 0) ->
  (4 * (x + 36524 * c + c / 4) + 3) / 146097 = c.
Proof.
  intros H.
  pose proof (Z.div_mod c 4 ltac:(lia)) as E.
  pose proof (Z.mod_pos_bound c 4 ltac:(lia)) as B.
  symmetry. apply Z.div_unique with (r := 4 * x + 3 - c mod 4).
  - left. destruct (Z.eqb_spec (c mod 4) 3); lia.
  - lia.
Qed.

Lemma month_of_doy (leap : bool) (m dd : Z) :
  march_day_ok leap m dd ->
  (5 * (days_before m + dd - 1) + 2) / 153 = m.
Proof.
  unfold march_day_ok, days_before. intros (Hm & Hd & Hle).
  split_month m; simpl (_ =? 11) in Hle; cbv iota in Hle; destruct leap; zdiv.
Qed.

Lemma march_doy_bounds (leap : bool) (m dd : Z) :
  march_day_ok leap m dd ->
  0 <= days_before m + dd - 1 <= 364 + (if leap then 1 else 0).
Proof.
  unfold march_day_ok, days_before. intros (Hm & Hd & Hle).
  split_month m; simpl (_ =? 11) in Hle; cbv iota in Hle; destruct leap; zdiv.
Qed.

(** Decoding a day count within a four-year Julian cycle. *)
Lemma julian_ymd_march (b y m dd : Z) :
  march_day_ok (y mod 4 =? 3) m dd ->
  julian_ymd (days_before m + dd - 1 + 365 * y + y / 4) b =
  (dd, m + 3 - 12 * (m / 10), b * 100 + y - 4800 + m / 10).
Proof.
  intros Hok. pose proof (march_doy_bounds _ _ _ Hok) as Hb.
  pose proof (month_of_doy _ _ _ Hok) as Hm.
  unfold julian_ymd.
  rewrite (year_of_days y (days_before m + dd - 1)) by exact Hb.
  rewrite quarter_1461.
  replace (days_before m + dd - 1 + 365 * y + y / 4 - (365 * y + y / 4))
    with (days_before m + dd - 1) by lia.
  rewrite Hm. unfold days_before. f_equal. f_equal. lia.
Qed.

(** Decoding a day count within a 400-year Gregorian cycle. *)
Lemma gregorian_ymd_march (y m dd : Z) :
  march_day_ok (is_leap_gregorian (y + 1)) m dd ->
  let a := days_before m + dd - 1 + 365 * y + y / 4 - y / 100 + y / 400 in
  let b := (4 * a + 3) / 146097 in
  julian_ymd (a - (b * 146097) / 4) b =
  (dd, m + 3 - 12 * (m / 10), y - 4800 + m / 10).
Proof.
  intros Hok a b.
  pose proof (march_doy_bounds _ _ _ Hok) as Hb.
  set (c := y / 100). set (r := y mod 100).
  assert (Hy : y = 100 * c + r) by (unfold c, r; zdiv).
  assert (Hr : 0 <= r < 100) by (unfold r; zdiv).
  assert (Hy4 : y / 4 = 25 * c + r / 4) by (unfold c, r; zdiv).
  assert (Hy400 : y / 400 = c / 4) by (unfold c; zdiv).
  assert (Hr4 : r mod 4 = y mod 4) by (unfold r; zdiv).
  set (x := days_before m + dd - 1 + 365 * r + r / 4).
  assert (Ha : a = x + 36524 * c + c / 4).
  { unfold a, x. fold c. rewrite Hy4, Hy400. lia. }
  assert (Hleap : is_leap_gregorian (y + 1) = true ->
                  y mod 4 = 3 /\ (r = 99 -> c mod 4 = 3)).
  { unfold is_leap_gregorian. intros Hl.
    apply andb_prop in Hl. destruct Hl as [H4 H100].
    apply Z.eqb_eq in H4. split; [zdiv|].
    intros Hr99. apply orb_prop in H100. destruct H100 as [H100 | H400].
    - apply negb_true_iff, Z.eqb_neq in H100. exfalso. apply H100. zdiv.
    - apply Z.eqb_eq in H400. zdiv. }
  assert (Hx : 0 <= x <= 36523 + (if c mod 4 =? 3 then 1 else 0)).
  { unfold x. destruct (is_leap_gregorian (y + 1)) eqn:El.
    - destruct (Hleap eq_refl) as [_ H99].
      destruct (Z.eqb_spec (c mod 4) 3); [zdiv|].
      assert (r <> 99) by tauto. zdiv.
    - destruct (Z.eqb_spec (c mod 4) 3); zdiv. }
  assert (Hbc : b = c).
  { unfold b. rewrite Ha. apply century_of_days. exact Hx. }
  rewrite Hbc, quarter_146097.
  replace (a - (36524 * c + c / 4)) with x by lia.
  unfold x.
  rewrite julian_ymd_march.
  - f_equal. lia.
  - rewrite Hr4. destruct Hok as (H1 & H2 & H3). repeat split; try lia.
    destruct (Z.eqb_spec m 11); [|exact H3].
    destruct (is_leap_gregorian (y + 1)) eqn:El.
    + destruct (Hleap eq_refl) as [-> _]. exact H3.
    + destruct (y mod 4 =? 3); lia.
Qed.

(** From the civil month to the March-based one. *)
Lemma civil_to_march (leap leap' : bool) (dd mm : Z) :
  1 <= mm <= 12 -> 1 <= dd <= days_in_month leap mm ->
  (mm = 2 -> leap' = leap) ->
  let a := (14 - mm) / 12 in
  let m := mm + 12 * a - 3 in
  march_day_ok leap' m dd /\ m / 10 = a /\ m + 3 - 12 * (m / 10) = mm.
Proof.
  intros Hm Hd Hl.
  assert (Hc : mm = 1 \/ mm = 2 \/ mm = 3 \/ mm = 4 \/ mm = 5 \/ mm = 6
               \/ mm = 7 \/ mm = 8 \/ mm = 9 \/ mm = 10 \/ mm = 11
               \/ mm = 12) by lia.
  unfold march_day_ok, days_before, days_in_month in *.
  destruct Hc as [-> | [-> | [-> | [-> | [-> | [-> | [-> | [-> | [-> | [->
                 | [-> | ->]]]]]]]]]]];
    cbn in Hd; cbv zeta; simpl (_ =? 11);
    try (rewrite Hl by reflexivity; destruct leap); zdiv.
Qed.

Ltac bool_to_prop :=
  repeat match goal with
  | H : _ && _ = true |- _ => apply andb_prop in H; destruct H
  | H : _ || _ = true |- _ => apply orb_prop in H; destruct H
  | H : (_ <=? _) = true |- _ => apply Z.leb_le in H
  | H : (_ <? _) = true |- _ => apply Z.ltb_lt in H
  | H : (_ =? _) = true |- _ => apply Z.eqb_eq in H
  end.

Lemma valid_julian_inv dd mm yy :
  valid_julian dd mm yy = true ->
  1 <= mm <= 12 /\ 1 <= dd <= days_in_month (is_leap_julian yy) mm.
Proof. unfold valid_julian. intros H. bool_to_prop. lia. Qed.

Lemma valid_gregorian_inv dd mm yy :
  valid_gregorian dd mm yy = true ->
  1 <= mm <= 12 /\ 1 <= dd <= days_in_month (is_leap_gregorian yy) mm.
Proof. unfold valid_gregorian. intros H. bool_to_prop. lia. Qed.

Lemma days_in_month_le leap mm : days_in_month leap mm <= 31.
Proof.
  unfold days_in_month.
  destruct (mm =? 2), leap,
    ((mm =? 4) || (mm =? 6) || (mm =? 9) || (mm =? 11)); lia.
Qed.

(** The Gregorian count of a date from 15 October 1582 on is at least
    2299161, so [jd_from_date] keeps it. *)
Lemma gregorian_era_jd dd mm yy :
  1 <= mm <= 12 -> 1 <= dd <= 31 ->
  date_leb 15 10 1582 dd mm yy = true ->
  let a := (14 - mm) / 12 in
  let y := yy + 4800 - a in
  let m := mm + 12 * a - 3 in
  2299161 <= dd + (153 * m + 2) / 5 + 365 * y + y / 4 - y / 100 + y / 400
             - 32045.
Proof.
  intros Hm Hd Hera. unfold date_leb in Hera. cbv zeta.
  assert (Hy : 1583 <= yy \/ yy = 1582 /\ (11 <= mm \/ mm = 10 /\ 15 <= dd))
    by (bool_to_prop; lia).
  clear Hera.
  destruct Hy as [Hy | [-> [Hmm | [-> Hdd]]]].
  - zdiv.
  - zdiv.
  - zdiv.
Qed.

(** Up to 4 October 1582 the Gregorian count is below 2299161, so
    [jd_from_date] switches to the Julian count, which is at most 2299160. *)
Lemma julian_era_jd dd mm yy :
  1 <= mm <= 12 -> 1 <= dd <= 31 ->
  date_leb dd mm yy 4 10 1582 = true ->
  let a := (14 - mm) / 12 in
  let y := yy + 4800 - a in
  let m := mm + 12 * a - 3 in
  dd + (153 * m + 2) / 5 + 365 * y + y / 4 - y / 100 + y / 400 - 32045
    < 2299161
  /\ dd + (153 * m + 2) / 5 + 365 * y + y / 4 - 32083 <= 2299160.
Proof.
  intros Hm Hd Hera. unfold date_leb in Hera. cbv zeta.
  assert (Hy : yy <= 1581 \/ yy = 1582 /\ (mm <= 9 \/ mm = 10 /\ dd <= 4))
    by (bool_to_prop; lia).
  clear Hera.
  destruct Hy as [Hy | [-> [Hmm | [-> Hdd]]]].
  - split; zdiv.
  - split; zdiv.
  - split; zdiv.
Qed.

Lemma julian_roundtrip dd mm yy :
  valid_julian dd mm yy = true -> date_leb dd mm yy 4 10 1582 = true ->
  jd_to_date_Z (jd_from_date_Z dd mm yy) = (dd, mm, yy).
Proof.
  intros Hv Hera. apply valid_julian_inv in Hv. destruct Hv as [Hm Hd].
  pose proof (days_in_month_le (is_leap_julian yy) mm) as H31.
  destruct (julian_era_jd dd mm yy Hm ltac:(lia) Hera) as [HG HJ].
  unfold jd_from_date_Z. cbv zeta in HG, HJ |- *.
  apply Z.ltb_lt in HG. rewrite HG.
  unfold jd_to_date_Z.
  replace (2299160 <? _) with false by (symmetry; apply Z.ltb_ge; exact HJ).
  set (a := (14 - mm) / 12) in *.
  set (y := yy + 4800 - a) in *.
  set (m := mm + 12 * a - 3) in *.
  destruct (civil_to_march (is_leap_julian yy) (y mod 4 =? 3) dd mm Hm Hd)
    as (Hok & Ha & Hmm).
  { intros ->. unfold is_leap_julian, y, a. change ((14 - 2) / 12) with 1.
    destruct (Z.eqb_spec (yy mod 4) 0), (Z.eqb_spec ((yy + 4800 - 1) mod 4) 3);
      try reflexivity; exfalso; zdiv. }
  fold a m in Hok, Ha, Hmm.
  replace (dd + (153 * m + 2) / 5 + 365 * y + y / 4 - 32083 + 32082)
    with (days_before m + dd - 1 + 365 * y + y / 4)
    by (unfold days_before; lia).
  rewrite (julian_ymd_march 0 y m dd Hok).
  rewrite Hmm, Ha. unfold y. f_equal. lia.
Qed.

Lemma gregorian_roundtrip dd mm yy :
  valid_gregorian dd mm yy = true -> date_leb 15 10 1582 dd mm yy = true ->
  jd_to_date_Z (jd_from_date_Z dd mm yy) = (dd, mm, yy).
Proof.
  intros Hv Hera. apply valid_gregorian_inv in Hv. destruct Hv as [Hm Hd].
  pose proof (days_in_month_le (is_leap_gregorian yy) mm) as H31.
  pose proof (gregorian_era_jd dd mm yy Hm ltac:(lia) Hera) as HG.
  unfold jd_from_date_Z. cbv zeta in HG |- *.
  replace (_ <? 2299161) with false by (symmetry; apply Z.ltb_ge; exact HG).
  unfold jd_to_date_Z.
  replace (2299160 <? _) with true by (symmetry; apply Z.ltb_lt; lia).
  set (a := (14 - mm) / 12) in *.
  set (y := yy + 4800 - a) in *.
  set (m := mm + 12 * a - 3) in *.
  destruct (civil_to_march (is_leap_gregorian yy) (is_leap_gregorian (y + 1))
              dd mm Hm Hd) as (Hok & Ha & Hmm).
  { intros ->. unfold is_leap_gregorian, y, a. change ((14 - 2) / 12) with 1.
    replace ((yy + 4800 - 1 + 1) mod 4) with (yy mod 4) by zdiv.
    replace ((yy + 4800 - 1 + 1) mod 100) with (yy mod 100) by zdiv.
    replace ((yy + 4800 - 1 + 1) mod 400) with (yy mod 400) by zdiv.
    reflexivity. }
  fold a m in Hok, Ha, Hmm.
  pose proof (gregorian_ymd_march y m dd Hok) as Hdec. cbv zeta in Hdec.
  replace (dd + (153 * m + 2) / 5 + 365 * y + y / 4 - y / 100 + y / 400
           - 32045 + 32044)
    with (days_before m + dd - 1 + 365 * y + y / 4 - y / 100 + y / 400)
    by (unfold days_before; lia).
  rewrite Hdec, Hmm, Ha. unfold y. f_equal. lia.
Qed.

(** C1. For every valid date of the civil calendar (Julian up to 4 October
    1582, Gregorian from 15 October 1582, proleptic, negative years
    included) whose year has magnitude at most [YEAR_BOUND], converting it to
    its Julian day number and back returns the same (day, month, year).  The
    bound keeps every dividend of the two converters below 2^53, where the
    binary64 quotients of the code floor like the exact ones. *)
Theorem jd_roundtrip (dd mm yy : Z) :
  valid_date dd mm yy = true ->
  Z.abs yy <= YEAR_BOUND ->
  jd_to_date (jd_from_date dd mm yy) = (dd, mm, yy).
Proof.
  intros Hv _. rewrite jd_from_date_Z_eq, jd_to_date_Z_eq.
  unfold valid_date in Hv. apply orb_prop in Hv.
  destruct Hv as [Hv | Hv]; apply andb_prop in Hv; destruct Hv as [Hc He].
  - apply julian_roundtrip; assumption.
  - apply gregorian_roundtrip; assumption.
Qed.

Lemma jd_roundtrip_witness :
  valid_date 29 2 2000 = true /\ valid_date 29 2 1500 = true
  /\ jd_to_date (jd_from_date 29 2 2000) = (29, 2, 2000)
  /\ jd_to_date (jd_from_date 29 2 1500) = (29, 2, 1500).
Proof.
  split; [reflexivity|]. split; [reflexivity|].
  split; [apply (jd_roundtrip 29 2 2000) | apply (jd_roundtrip 29 2 1500)];
    try reflexivity; vm_compute; intros E; discriminate E.
Defined.

(** C5. The three anchor values of [jd_from_date]: 1 January 2000, and the
    two sides of the calendar transition. *)
Theorem jd_from_date_anchors :
  jd_from_date 1 1 2000 = 2451545
  /\ jd_from_date 4 10 1582 = 2299160
  /\ jd_from_date 15 10 1582 = 2299161.
Proof. repeat split; vm_compute; reflexivity. Qed.

(** C10. Each skipped date 5..14 October 1582 gets the Julian day number of
    the date ten days later (5 October and 15 October both give 2299161), and
    converting that number back yields the later date, not the skipped one. *)
Theorem jd_from_date_skipped_days (dd : Z) :
  5 <= dd <= 14 ->
  jd_from_date dd 10 1582 = jd_from_date (dd + 10) 10 1582
  /\ jd_from_date dd 10 1582 = 2299161 + (dd - 5)
  /\ jd_to_date (jd_from_date dd 10 1582) = (dd + 10, 10, 1582)
  /\ jd_to_date (jd_from_date dd 10 1582) <> (dd, 10, 1582).
Proof.
  intros H.
  assert (Hc : dd = 5 \/ dd = 6 \/ dd = 7 \/ dd = 8 \/ dd = 9 \/ dd = 10
               \/ dd = 11 \/ dd = 12 \/ dd = 13 \/ dd = 14) by lia.
  destruct Hc as [-> | [-> | [-> | [-> | [-> | [-> | [-> | [-> | [-> | ->]]]]]]]]];
    repeat split; try (vm_compute; reflexivity);
    vm_compute; intros E; discriminate E.
Qed.

Lemma jd_from_date_skipped_days_witness :
  jd_from_date 5 10 1582 = jd_from_date 15 10 1582
  /\ jd_from_date 5 10 1582 = 2299161
  /\ jd_to_date (jd_from_date 5 10 1582) = (15, 10, 1582)
  /\ jd_to_date (jd_from_date 5 10 1582) <> (5, 10, 1582).
Proof. apply (jd_from_date_skipped_days 5). lia. Defined.

(** ** From a day number of the Gregorian era back to a valid date *)

(** Position of a day count [c] inside a century: year [d] in 0..99 and day
    of year [e]; the 366th day exists only in a year [d = 3 mod 4]. *)
Lemma year_in_century (c : Z) (long : bool) :
  0 <= c <= 36523 + (if long then 1 else 0) ->
  let d := (4 * c + 3) / 1461 in
  let e := c - (1461 * d) / 4 in
  0 <= d <= 99
  /\ 0 <= e <= 364 + (if d mod 4 =? 3 then 1 else 0)
  /\ (d = 99 -> e = 365 -> long = true).
Proof.
  intros Hc d e.
  assert (He : e = c - (365 * d + d / 4)) by (unfold e; rewrite quarter_1461; reflexivity).
  assert (Hd : 0 <= d <= 99) by (unfold d; destruct long; zdiv).
  split; [exact Hd|].
  split.
  - rewrite He. unfold d. destruct (Z.eqb_spec (((4 * c + 3) / 1461) mod 4) 3); zdiv.
  - intros Hd99 He365. destruct long; [reflexivity|].
    rewrite He, Hd99 in He365. change (99 / 4) with 24 in He365. lia.
Qed.

(** Month and day of a day of year [e]. *)
Lemma month_in_year (e : Z) (leap : bool) :
  0 <= e <= 364 + (if leap then 1 else 0) ->
  let m := (5 * e + 2) / 153 in
  march_day_ok leap m (e - days_before m + 1).
Proof.
  intros He m. unfold march_day_ok.
  assert (Hm : 0 <= m <= 11) by (unfold m; destruct leap; zdiv).
  split; [exact Hm|].
  assert (Hdef : m = (5 * e + 2) / 153) by reflexivity.
  clearbody m. unfold days_before.
  split_month m; simpl (_ =? 11); cbv iota; destruct leap; zdiv.
Qed.

Lemma march_to_civil (leap : bool) (m dd : Z) :
  march_day_ok leap m dd ->
  let mm := m + 3 - 12 * (m / 10) in
  1 <= mm <= 12 /\ 1 <= dd <= days_in_month leap mm
  /\ (14 - mm) / 12 = m / 10 /\ mm + 12 * (m / 10) - 3 = m
  /\ (mm = 2 <-> m = 11).
Proof.
  unfold march_day_ok, days_before. intros (Hm & Hd & Hle).
  split_month m; simpl (_ =? 11) in Hle; cbv iota in Hle;
    cbv zeta; unfold days_in_month;
    match goal with |- context [?a + 3 - 12 * (?a / 10)] =>
      let v := eval vm_compute in (a + 3 - 12 * (a / 10)) in
      change (a + 3 - 12 * (a / 10)) with v
    end;
    simpl (_ =? _); cbv iota; simpl orb; cbv iota; destruct leap; zdiv.
Qed.

Lemma days_in_month_leap_irrelevant (l1 l2 : bool) (mm : Z) :
  mm <> 2 -> days_in_month l1 mm = days_in_month l2 mm.
Proof.
  intros H. unfold days_in_month.
  destruct (Z.eqb_spec mm 2); [contradiction | reflexivity].
Qed.

Lemma is_leap_gregorian_shift (y : Z) :
  is_leap_gregorian (y - 4800) = is_leap_gregorian y.
Proof.
  unfold is_leap_gregorian.
  replace ((y - 4800) mod 4) with (y mod 4) by zdiv.
  replace ((y - 4800) mod 100) with (y mod 100) by zdiv.
  replace ((y - 4800) mod 400) with (y mod 400) by zdiv.
  reflexivity.
Qed.

Lemma is_leap_gregorian_century (b d : Z) :
  0 <= d <= 99 ->
  is_leap_gregorian (100 * b + d + 1)
  = (d mod 4 =? 3) && (negb (d =? 99) || (b mod 4 =? 3)).
Proof.
  intros Hd. unfold is_leap_gregorian.
  destruct (Z.eqb_spec ((100 * b + d + 1) mod 4) 0),
           (Z.eqb_spec ((100 * b + d + 1) mod 100) 0),
           (Z.eqb_spec ((100 * b + d + 1) mod 400) 0),
           (Z.eqb_spec (d mod 4) 3), (Z.eqb_spec d 99),
           (Z.eqb_spec (b mod 4) 3);
    cbn; try reflexivity; exfalso; zdiv.
Qed.

(** Before 15 October 1582 the Gregorian count is below 2299161. *)
Lemma gregorian_count_before dd mm yy :
  1 <= mm <= 12 -> 1 <= dd <= 31 ->
  date_leb 15 10 1582 dd mm yy = false ->
  let a := (14 - mm) / 12 in
  let y := yy + 4800 - a in
  let m := mm + 12 * a - 3 in
  dd + (153 * m + 2) / 5 + 365 * y + y / 4 - y / 100 + y / 400 - 32045
    < 2299161.
Proof.
  intros Hm Hd Hera. unfold date_leb in Hera. cbv zeta.
  assert (Hy : yy <= 1581 \/ yy = 1582 /\ (mm <= 9 \/ mm = 10 /\ dd <= 14)).
  { destruct (Z.ltb_spec 1582 yy), (Z.eqb_spec 1582 yy), (Z.ltb_spec 10 mm),
      (Z.eqb_spec 10 mm), (Z.leb_spec 15 dd); cbn in Hera;
      try discriminate; lia. }
  clear Hera.
  destruct Hy as [Hy | [-> [Hmm | [-> Hdd]]]]; zdiv.
Qed.

Lemma jd_to_date_Z_gregorian (jd : Z) :
  2299161 <= jd ->
  exists dd mm yy,
    jd_to_date_Z jd = (dd, mm, yy)
    /\ valid_gregorian dd mm yy = true
    /\ date_leb 15 10 1582 dd mm yy = true
    /\ jd_from_date_Z dd mm yy = jd.
Proof.
  intros Hjd. unfold jd_to_date_Z.
  replace (2299160 <? jd) with true by (symmetry; apply Z.ltb_lt; lia).
  cbv zeta. set (a := jd + 32044). set (b := (4 * a + 3) / 146097).
  rewrite quarter_146097. set (c := a - (36524 * b + b / 4)).
  assert (Hc : 0 <= c <= 36523 + (if b mod 4 =? 3 then 1 else 0)).
  { unfold c, b. destruct (Z.eqb_spec (((4 * a + 3) / 146097) mod 4) 3); zdiv. }
  destruct (year_in_century c (b mod 4 =? 3) Hc) as (Hd & He & Hlong).
  unfold julian_ymd.
  set (d := (4 * c + 3) / 1461) in *.
  set (e := c - (1461 * d) / 4) in *.
  assert (Hb0 : 0 <= b) by (unfold b, a; zdiv).
  assert (He' : 0 <= e <= 364 + (if is_leap_gregorian (100 * b + d + 1)
                                 then 1 else 0)).
  { rewrite is_leap_gregorian_century by exact Hd.
    destruct (Z.eqb_spec (d mod 4) 3); cbn [andb]; [|lia].
    destruct (Z.eqb_spec d 99) as [E99 | N99]; cbn [negb orb]; [|lia].
    destruct (b mod 4 =? 3) eqn:Eb; [lia|].
    assert (e <> 365) by (intros E; specialize (Hlong E99 E); discriminate).
    lia. }
  pose proof (month_in_year e _ He') as Hok. cbv zeta in Hok.
  set (m := (5 * e + 2) / 153) in *.
  fold (days_before m).
  set (dd := e - days_before m + 1) in *.
  destruct (march_to_civil _ m dd Hok) as (Hmm & Hdd & Ha & Hm' & Hfeb).
  set (mm := m + 3 - 12 * (m / 10)) in *.
  set (yy := b * 100 + d - 4800 + m / 10).
  exists dd, mm, yy. split; [reflexivity|].
  assert (Hvalid : valid_gregorian dd mm yy = true).
  { unfold valid_gregorian.
    assert (Hdim : dd <= days_in_month (is_leap_gregorian yy) mm).
    { destruct (Z.eq_dec mm 2) as [E2 | N2].
      - assert (Em : m = 11) by (apply Hfeb; exact E2).
        replace (is_leap_gregorian yy)
          with (is_leap_gregorian (100 * b + d + 1)); [lia|].
        rewrite <- (is_leap_gregorian_shift (100 * b + d + 1)).
        f_equal. unfold yy. rewrite Em. change (11 / 10) with 1. lia.
      - rewrite (days_in_month_leap_irrelevant _
                   (is_leap_gregorian (100 * b + d + 1))) by exact N2.
        lia. }
    repeat (apply andb_true_intro; split);
      try (apply Z.leb_le; lia). }
  assert (Hcount :
    dd + (153 * m + 2) / 5 + 365 * (100 * b + d) + (100 * b + d) / 4
      - (100 * b + d) / 100 + (100 * b + d) / 400 - 32045 = jd).
  { replace ((100 * b + d) / 4) with (25 * b + d / 4) by zdiv.
    replace ((100 * b + d) / 100) with b by zdiv.
    replace ((100 * b + d) / 400) with (b / 4) by zdiv.
    unfold dd, days_before, e. rewrite quarter_1461. unfold c, a. lia. }
  assert (Hfrom : jd_from_date_Z dd mm yy = jd).
  { unfold jd_from_date_Z. cbv zeta. rewrite Ha.
    replace (yy + 4800 - m / 10) with (100 * b + d) by (unfold yy; lia).
    rewrite Hm', Hcount.
    replace (jd <? 2299161) with false by (symmetry; apply Z.ltb_ge; lia).
    reflexivity. }
  split; [exact Hvalid|]. split; [|exact Hfrom].
  destruct (date_leb 15 10 1582 dd mm yy) eqn:Hera; [reflexivity|].
  exfalso.
  pose proof (days_in_month_le (is_leap_gregorian yy) mm) as H31.
  apply valid_gregorian_inv in Hvalid.
  pose proof (gregorian_count_before dd mm yy ltac:(lia) ltac:(lia) Hera)
    as Hlt.
  cbv zeta in Hlt. rewrite Ha in Hlt.
  replace (yy + 4800 - m / 10) with (100 * b + d) in Hlt by (unfold yy; lia).
  rewrite Hm', Hcount in Hlt. lia.
Qed.

(** * Further properties of the JDN converter *)

(** ** Every day number is the number of the date it decodes to *)

(** Year [d] and day of year [e] of a Julian day count of any sign. *)
Lemma year_of_count (c : Z) :
  let d := (4 * c + 3) / 1461 in
  let e := c - (1461 * d) / 4 in
  0 <= e <= 364 + (if d mod 4 =? 3 then 1 else 0).
Proof.
  intros d e.
  assert (He : e = c - (365 * d + d / 4))
    by (unfold e; rewrite quarter_1461; reflexivity).
  rewrite He. unfold d.
  destruct (Z.eqb_spec (((4 * c + 3) / 1461) mod 4) 3); zdiv.
Qed.

(** After 4 October 1582 the Julian count exceeds 2299160. *)
Lemma julian_count_after dd mm yy :
  1 <= mm <= 12 -> 1 <= dd <= 31 ->
  date_leb dd mm yy 4 10 1582 = false ->
  let a := (14 - mm) / 12 in
  let y := yy + 4800 - a in
  let m := mm + 12 * a - 3 in
  2299160 < dd + (153 * m + 2) / 5 + 365 * y + y / 4 - 32083.
Proof.
  intros Hm Hd Hera. unfold date_leb in Hera. cbv zeta.
  assert (Hy : 1583 <= yy \/ yy = 1582 /\ (11 <= mm \/ mm = 10 /\ 5 <= dd)).
  { destruct (Z.ltb_spec yy 1582), (Z.eqb_spec yy 1582), (Z.ltb_spec mm 10),
      (Z.eqb_spec mm 10), (Z.leb_spec dd 4); cbn in Hera;
      try discriminate; lia. }
  clear Hera.
  destruct Hy as [Hy | [-> [Hmm | [-> Hdd]]]]; zdiv.
Qed.

Lemma jd_to_date_Z_julian (jd : Z) :
  jd <= 2299160 ->
  exists dd mm yy,
    jd_to_date_Z jd = (dd, mm, yy)
    /\ valid_julian dd mm yy = true
    /\ date_leb dd mm yy 4 10 1582 = true
    /\ jd_from_date_Z dd mm yy = jd.
Proof.
  intros Hjd. unfold jd_to_date_Z.
  replace (2299160 <? jd) with false by (symmetry; apply Z.ltb_ge; lia).
  unfold julian_ymd. set (c := jd + 32082).
  pose proof (year_of_count c) as He. cbv zeta in He.
  set (d := (4 * c + 3) / 1461) in *.
  set (e := c - (1461 * d) / 4) in *.
  pose proof (month_in_year e _ He) as Hok. cbv zeta in Hok.
  set (m := (5 * e + 2) / 153) in *.
  fold (days_before m).
  set (dd := e - days_before m + 1) in *.
  destruct (march_to_civil _ m dd Hok) as (Hmm & Hdd & Ha & Hm' & Hfeb).
  set (mm := m + 3 - 12 * (m / 10)) in *.
  set (yy := 0 * 100 + d - 4800 + m / 10).
  exists dd, mm, yy. split; [reflexivity|].
  assert (Hvalid : valid_julian dd mm yy = true).
  { unfold valid_julian.
    assert (Hdim : dd <= days_in_month (is_leap_julian yy) mm).
    { destruct (Z.eq_dec mm 2) as [E2 | N2].
      - assert (Em : m = 11) by (apply Hfeb; exact E2).
        replace (is_leap_julian yy) with (d mod 4 =? 3); [lia|].
        unfold is_leap_julian, yy. rewrite Em. change (11 / 10) with 1.
        destruct (Z.eqb_spec (d mod 4) 3),
          (Z.eqb_spec ((0 * 100 + d - 4800 + 1) mod 4) 0);
          try reflexivity; exfalso; zdiv.
      - rewrite (days_in_month_leap_irrelevant _ (d mod 4 =? 3)) by exact N2.
        lia. }
    repeat (apply andb_true_intro; split);
      try (apply Z.leb_le; lia). }
  assert (Hcount :
    dd + (153 * m + 2) / 5 + 365 * d + d / 4 - 32083 = jd).
  { unfold dd, days_before, e. rewrite quarter_1461. unfold c. lia. }
  pose proof (days_in_month_le (is_leap_julian yy) mm) as H31.
  pose proof (valid_julian_inv _ _ _ Hvalid) as [Hvm Hvd].
  assert (Hera : date_leb dd mm yy 4 10 1582 = true).
  { destruct (date_leb dd mm yy 4 10 1582) eqn:Hera; [reflexivity|].
    exfalso.
    pose proof (julian_count_after dd mm yy ltac:(lia) ltac:(lia) Hera)
      as Hgt.
    cbv zeta in Hgt. rewrite Ha in Hgt.
    replace (yy + 4800 - m / 10) with d in Hgt by (unfold yy; lia).
    rewrite Hm', Hcount in Hgt. lia. }
  split; [exact Hvalid|]. split; [exact Hera|].
  destruct (julian_era_jd dd mm yy ltac:(lia) ltac:(lia) Hera) as [HG _].
  unfold jd_from_date_Z. cbv zeta in HG |- *.
  apply Z.ltb_lt in HG. rewrite HG. rewrite Ha.
  replace (yy + 4800 - m / 10) with d by (unfold yy; lia).
  rewrite Hm'. exact Hcount.
Qed.

(** The decoded date of any day number, with what the encoder makes of it. *)
Lemma jd_to_date_Z_inverse (jd : Z) :
  exists dd mm yy,
    jd_to_date_Z jd = (dd, mm, yy)
    /\ valid_date dd mm yy = true
    /\ jd_from_date_Z dd mm yy = jd.
Proof.
  destruct (Z_le_gt_dec jd 2299160) as [Hj | Hg].
  - destruct (jd_to_date_Z_julian jd Hj) as (dd & mm & yy & H1 & H2 & H3 & H4).
    exists dd, mm, yy. split; [exact H1|]. split; [|exact H4].
    unfold valid_date. rewrite H2, H3. reflexivity.
  - destruct (jd_to_date_Z_gregorian jd ltac:(lia))
      as (dd & mm & yy & H1 & H2 & H3 & H4).
    exists dd, mm, yy. split; [exact H1|]. split; [|exact H4].
    unfold valid_date. rewrite H2, H3. apply orb_true_r.
Qed.

(** Decoding after encoding, on valid dates. *)
Lemma valid_date_roundtrip_Z dd mm yy :
  valid_date dd mm yy = true ->
  jd_to_date_Z (jd_from_date_Z dd mm yy) = (dd, mm, yy).
Proof.
  intros Hv. unfold valid_date in Hv. apply orb_prop in Hv.
  destruct Hv as [Hv | Hv]; apply andb_prop in Hv; destruct Hv as [Hc He].
  - apply julian_roundtrip; assumption.
  - apply gregorian_roundtrip; assumption.
Qed.

(** X1. [jd_to_date] lands on the calendar: for every day number of
    magnitude at most [JD_BOUND], of either era and of either sign, the
    decoded (day, month, year) is a valid date and [jd_from_date] maps it
    back to the same day number. *)
Theorem jd_to_date_valid_inverse (jd : Z) :
  Z.abs jd <= JD_BOUND ->
  let '(dd, mm, yy) := jd_to_date jd in
  valid_date dd mm yy = true /\ jd_from_date dd mm yy = jd.
Proof.
  intros _.
  destruct (jd_to_date_Z_inverse jd) as (dd & mm & yy & H1 & H2 & H3).
  rewrite jd_to_date_Z_eq, H1, jd_from_date_Z_eq. split; assumption.
Qed.

Lemma jd_to_date_valid_inverse_witness :
  valid_date 4 10 1582 = true /\ jd_from_date 4 10 1582 = 2299160.
Proof.
  apply (jd_to_date_valid_inverse 2299160).
  vm_compute. intros E. discriminate E.
Defined.

(** X2. [jd_from_date] is injective on valid dates with years of magnitude
    at most [YEAR_BOUND]: two different such dates never get the same day
    number. *)
Theorem jd_from_date_injective (d1 m1 y1 d2 m2 y2 : Z) :
  valid_date d1 m1 y1 = true -> valid_date d2 m2 y2 = true ->
  Z.abs y1 <= YEAR_BOUND -> Z.abs y2 <= YEAR_BOUND ->
  (d1, m1, y1) <> (d2, m2, y2) ->
  jd_from_date d1 m1 y1 <> jd_from_date d2 m2 y2.
Proof.
  intros H1 H2 _ _ Hne E. apply Hne. rewrite !jd_from_date_Z_eq in E.
  rewrite <- (valid_date_roundtrip_Z d1 m1 y1 H1).
  rewrite <- (valid_date_roundtrip_Z d2 m2 y2 H2).
  rewrite E. reflexivity.
Qed.

Lemma jd_from_date_injective_witness :
  jd_from_date 4 10 1582 <> jd_from_date 15 10 1582.
Proof.
  apply (jd_from_date_injective 4 10 1582 15 10 1582);
    [reflexivity | reflexivity
     | vm_compute; intros E; discriminate E
     | vm_compute; intros E; discriminate E
     | intros E; discriminate E].
Defined.

(** ** Day numbers follow the order of the calendar *)

Lemma days_before_mono (m1 m2 : Z) :
  m1 <= m2 -> days_before m1 <= days_before m2.
Proof. unfold days_before. intros H. zdiv. Qed.

Lemma march_day_within_month (leap : bool) (m dd : Z) :
  march_day_ok leap m dd -> m < 11 -> days_before m + dd <= days_before (m + 1).
Proof.
  unfold march_day_ok. intros (Hm & Hd & Hle) Hlt.
  destruct (Z.eqb_spec m 11); lia.
Qed.

(** The Julian count is strictly increasing along (year, month, day). *)
Lemma julian_count_mono (y1 m1 d1 y2 m2 d2 : Z) :
  march_day_ok (y1 mod 4 =? 3) m1 d1 ->
  march_day_ok (y2 mod 4 =? 3) m2 d2 ->
  12 * y1 + m1 < 12 * y2 + m2 ->
  days_before m1 + d1 + 365 * y1 + y1 / 4
  < days_before m2 + d2 + 365 * y2 + y2 / 4.
Proof.
  intros H1 H2 Hlt.
  pose proof (march_doy_bounds _ _ _ H1) as B1.
  pose proof (march_doy_bounds _ _ _ H2) as B2.
  destruct H1 as (Hm1 & Hd1 & Hle1). destruct H2 as (Hm2 & Hd2 & Hle2).
  destruct (Z.eq_dec y1 y2) as [-> | Hy].
  - assert (Hm : m1 + 1 <= m2) by lia.
    pose proof (days_before_mono _ _ Hm) as Hdb.
    destruct (Z.eqb_spec m1 11); lia.
  - assert (Hy' : y1 + 1 <= y2) by lia. clear Hle1 Hle2 Hy Hlt.
    destruct (Z.eqb_spec (y1 mod 4) 3), (Z.eqb_spec (y2 mod 4) 3); zdiv.
Qed.

Lemma gregorian_days_step (y : Z) :
  gregorian_days (y + 1)
  = gregorian_days y + 365 + (if is_leap_gregorian (y + 1) then 1 else 0).
Proof.
  unfold gregorian_days, is_leap_gregorian.
  destruct (Z.eqb_spec ((y + 1) mod 4) 0),
           (Z.eqb_spec ((y + 1) mod 100) 0),
           (Z.eqb_spec ((y + 1) mod 400) 0); cbn [andb orb negb]; zdiv.
Qed.

Lemma gregorian_days_mono (y1 y2 : Z) :
  y1 <= y2 -> gregorian_days y1 <= gregorian_days y2.
Proof.
  intros H. replace y2 with (y1 + (y2 - y1)) by lia.
  assert (Ht : 0 <= y2 - y1) by lia. revert Ht.
  generalize (y2 - y1). apply natlike_ind.
  - rewrite Z.add_0_r. lia.
  - intros t Ht IH. replace (y1 + Z.succ t) with (y1 + t + 1) by lia.
    rewrite gregorian_days_step.
    destruct (is_leap_gregorian (y1 + t + 1)); lia.
Qed.

(** The Gregorian count is strictly increasing along (year, month, day). *)
Lemma gregorian_count_mono (y1 m1 d1 y2 m2 d2 : Z) :
  march_day_ok (is_leap_gregorian (y1 + 1)) m1 d1 ->
  march_day_ok (is_leap_gregorian (y2 + 1)) m2 d2 ->
  12 * y1 + m1 < 12 * y2 + m2 ->
  days_before m1 + d1 + gregorian_days y1
  < days_before m2 + d2 + gregorian_days y2.
Proof.
  intros H1 H2 Hlt.
  pose proof (march_doy_bounds _ _ _ H1) as B1.
  pose proof (march_doy_bounds _ _ _ H2) as B2.
  destruct H1 as (Hm1 & Hd1 & Hle1). destruct H2 as (Hm2 & Hd2 & Hle2).
  destruct (Z.eq_dec y1 y2) as [-> | Hy].
  - assert (Hm : m1 + 1 <= m2) by lia.
    pose proof (days_before_mono _ _ Hm) as Hdb.
    destruct (Z.eqb_spec m1 11); lia.
  - pose proof (gregorian_days_step y1) as Hs.
    pose proof (gregorian_days_mono (y1 + 1) y2 ltac:(lia)) as Hmono.
    destruct (is_leap_gregorian (y1 + 1)),
             (is_leap_gregorian (y2 + 1)); lia.
Qed.

Lemma valid_julian_march dd mm yy :
  valid_julian dd mm yy = true ->
  let a := (14 - mm) / 12 in
  let y := yy + 4800 - a in
  let m := mm + 12 * a - 3 in
  march_day_ok (y mod 4 =? 3) m dd /\ 12 * y + m = 12 * yy + mm + 57597.
Proof.
  intros Hv. apply valid_julian_inv in Hv. destruct Hv as [Hm Hd].
  intros a y m.
  destruct (civil_to_march (is_leap_julian yy) (y mod 4 =? 3) dd mm Hm Hd)
    as (Hok & Ha & Hmm).
  { intros ->. unfold is_leap_julian, y, a. change ((14 - 2) / 12) with 1.
    destruct (Z.eqb_spec (yy mod 4) 0), (Z.eqb_spec ((yy + 4800 - 1) mod 4) 3);
      try reflexivity; exfalso; zdiv. }
  split; [exact Hok | unfold y, m; lia].
Qed.

Lemma valid_gregorian_march dd mm yy :
  valid_gregorian dd mm yy = true ->
  let a := (14 - mm) / 12 in
  let y := yy + 4800 - a in
  let m := mm + 12 * a - 3 in
  march_day_ok (is_leap_gregorian (y + 1)) m dd
  /\ 12 * y + m = 12 * yy + mm + 57597.
Proof.
  intros Hv. apply valid_gregorian_inv in Hv. destruct Hv as [Hm Hd].
  intros a y m.
  destruct (civil_to_march (is_leap_gregorian yy) (is_leap_gregorian (y + 1))
              dd mm Hm Hd) as (Hok & Ha & Hmm).
  { intros ->. unfold y, a. change ((14 - 2) / 12) with 1.
    rewrite <- (is_leap_gregorian_shift (yy + 4800 - 1 + 1)).
    f_equal. lia. }
  split; [exact Hok | unfold y, m; lia].
Qed.

(** What [jd_from_date] computes in each era. *)
Lemma jd_from_date_Z_julian_era dd mm yy :
  valid_julian dd mm yy = true -> date_leb dd mm yy 4 10 1582 = true ->
  let a := (14 - mm) / 12 in
  let y := yy + 4800 - a in
  let m := mm + 12 * a - 3 in
  jd_from_date_Z dd mm yy = days_before m + dd + 365 * y + y / 4 - 32083
  /\ jd_from_date_Z dd mm yy <= 2299160.
Proof.
  intros Hv Hera. apply valid_julian_inv in Hv. destruct Hv as [Hm Hd].
  pose proof (days_in_month_le (is_leap_julian yy) mm) as H31.
  destruct (julian_era_jd dd mm yy Hm ltac:(lia) Hera) as [HG HJ].
  unfold jd_from_date_Z, days_before. cbv zeta in HG, HJ |- *.
  apply Z.ltb_lt in HG. rewrite HG. split; lia.
Qed.

Lemma jd_from_date_Z_gregorian_era dd mm yy :
  valid_gregorian dd mm yy = true -> date_leb 15 10 1582 dd mm yy = true ->
  let a := (14 - mm) / 12 in
  let y := yy + 4800 - a in
  let m := mm + 12 * a - 3 in
  jd_from_date_Z dd mm yy = days_before m + dd + gregorian_days y - 32045
  /\ 2299161 <= jd_from_date_Z dd mm yy.
Proof.
  intros Hv Hera. apply valid_gregorian_inv in Hv. destruct Hv as [Hm Hd].
  pose proof (days_in_month_le (is_leap_gregorian yy) mm) as H31.
  pose proof (gregorian_era_jd dd mm yy Hm ltac:(lia) Hera) as HG.
  unfold jd_from_date_Z, days_before, gregorian_days. cbv zeta in HG |- *.
  replace (_ <? 2299161) with false by (symmetry; apply Z.ltb_ge; exact HG).
  split; lia.
Qed.

Lemma date_leb_cases d1 m1 y1 d2 m2 y2 :
  1 <= m1 <= 12 -> 1 <= m2 <= 12 ->
  date_leb d1 m1 y1 d2 m2 y2 = true ->
  12 * y1 + m1 < 12 * y2 + m2 \/ (y1 = y2 /\ m1 = m2 /\ d1 <= d2).
Proof.
  intros H1 H2 H. unfold date_leb in H. bool_to_prop; lia.
Qed.

Lemma date_leb_total d1 m1 y1 d2 m2 y2 :
  date_leb d1 m1 y1 d2 m2 y2 = false ->
  date_leb d2 m2 y2 d1 m1 y1 = true /\ (d1, m1, y1) <> (d2, m2, y2).
Proof.
  unfold date_leb. intros H.
  destruct (Z.ltb_spec y1 y2), (Z.eqb_spec y1 y2), (Z.ltb_spec m1 m2),
    (Z.eqb_spec m1 m2), (Z.leb_spec d1 d2); cbn in H; try discriminate;
    (split; [| intros E; injection E; lia]);
    destruct (Z.ltb_spec y2 y1), (Z.eqb_spec y2 y1), (Z.ltb_spec m2 m1),
      (Z.eqb_spec m2 m1), (Z.leb_spec d2 d1); cbn; try reflexivity; lia.
Qed.

Lemma date_leb_trans_era d1 m1 y1 d2 m2 y2 :
  date_leb 15 10 1582 d1 m1 y1 = true ->
  date_leb d2 m2 y2 4 10 1582 = true ->
  date_leb d1 m1 y1 d2 m2 y2 = false.
Proof.
  unfold date_leb. intros H1 H2.
  destruct (date_leb d1 m1 y1 d2 m2 y2) eqn:E; [|unfold date_leb in E; exact E].
  unfold date_leb in E. exfalso. bool_to_prop; lia.
Qed.

Lemma jd_from_date_Z_mono d1 m1 y1 d2 m2 y2 :
  valid_date d1 m1 y1 = true -> valid_date d2 m2 y2 = true ->
  date_leb d1 m1 y1 d2 m2 y2 = true ->
  jd_from_date_Z d1 m1 y1 <= jd_from_date_Z d2 m2 y2.
Proof.
  intros V1 V2 Hle.
  unfold valid_date in V1, V2.
  apply orb_prop in V1. apply orb_prop in V2.
  destruct V1 as [V1 | V1]; apply andb_prop in V1; destruct V1 as [C1 E1];
  destruct V2 as [V2 | V2]; apply andb_prop in V2; destruct V2 as [C2 E2].
  - (* both Julian *)
    destruct (jd_from_date_Z_julian_era _ _ _ C1 E1) as [-> _].
    destruct (jd_from_date_Z_julian_era _ _ _ C2 E2) as [-> _].
    destruct (valid_julian_march _ _ _ C1) as [O1 I1].
    destruct (valid_julian_march _ _ _ C2) as [O2 I2].
    pose proof (valid_julian_inv _ _ _ C1) as [M1 _].
    pose proof (valid_julian_inv _ _ _ C2) as [M2 _].
    destruct (date_leb_cases _ _ _ _ _ _ M1 M2 Hle) as [Hlt | (-> & -> & Hd)].
    + pose proof (julian_count_mono _ _ _ _ _ _ O1 O2 ltac:(lia)). lia.
    + lia.
  - (* Julian, then Gregorian *)
    destruct (jd_from_date_Z_julian_era _ _ _ C1 E1) as [_ H1].
    destruct (jd_from_date_Z_gregorian_era _ _ _ C2 E2) as [_ H2]. lia.
  - (* Gregorian before Julian: impossible *)
    rewrite (date_leb_trans_era _ _ _ _ _ _ E1 E2) in Hle. discriminate.
  - (* both Gregorian *)
    destruct (jd_from_date_Z_gregorian_era _ _ _ C1 E1) as [-> _].
    destruct (jd_from_date_Z_gregorian_era _ _ _ C2 E2) as [-> _].
    destruct (valid_gregorian_march _ _ _ C1) as [O1 I1].
    destruct (valid_gregorian_march _ _ _ C2) as [O2 I2].
    pose proof (valid_gregorian_inv _ _ _ C1) as [M1 _].
    pose proof (valid_gregorian_inv _ _ _ C2) as [M2 _].
    destruct (date_leb_cases _ _ _ _ _ _ M1 M2 Hle) as [Hlt | (-> & -> & Hd)].
    + pose proof (gregorian_count_mono _ _ _ _ _ _ O1 O2 ltac:(lia)). lia.
    + lia.
Qed.

(** X3. Day numbers follow the calendar: for two valid dates with years
    of magnitude at most [YEAR_BOUND], [jd_from_date] of the first is at most
    that of the second exactly when the first date is not later, across the
    1582 transition as well. *)
Theorem jd_from_date_order (d1 m1 y1 d2 m2 y2 : Z) :
  valid_date d1 m1 y1 = true -> valid_date d2 m2 y2 = true ->
  Z.abs y1 <= YEAR_BOUND -> Z.abs y2 <= YEAR_BOUND ->
  (jd_from_date d1 m1 y1 <= jd_from_date d2 m2 y2
   <-> date_leb d1 m1 y1 d2 m2 y2 = true).
Proof.
  intros V1 V2 _ _. rewrite !jd_from_date_Z_eq. split.
  - intros Hle. destruct (date_leb d1 m1 y1 d2 m2 y2) eqn:E; [reflexivity|].
    exfalso. destruct (date_leb_total _ _ _ _ _ _ E) as [Hge Hne].
    pose proof (jd_from_date_Z_mono _ _ _ _ _ _ V2 V1 Hge) as Hle'.
    apply Hne.
    rewrite <- (valid_date_roundtrip_Z d1 m1 y1 V1).
    rewrite <- (valid_date_roundtrip_Z d2 m2 y2 V2).
    f_equal. lia.
  - apply jd_from_date_Z_mono; assumption.
Qed.

Lemma jd_from_date_order_witness :
  jd_from_date 4 10 1582 <= jd_from_date 15 10 1582
  <-> date_leb 4 10 1582 15 10 1582 = true.
Proof.
  apply (jd_from_date_order 4 10 1582 15 10 1582);
    try reflexivity; vm_compute; intros E; discriminate E.
Defined.

(** ** Days that no month has *)

(** X4. [jd_from_date] does not validate the day.  From a valid date on or
    after 15 October 1582 (year of magnitude at most [YEAR_BOUND]), adding
    [0 <= n <= 10^14] to the day adds [n] to the day number, whether or not
    the month has that many days; and [jd_to_date] of that number is a valid
    date, not earlier than the one started from, whose own day number is [n]
    more: the date [n] days later. *)
Theorem jd_from_date_day_overflow (dd mm yy n : Z) :
  valid_gregorian dd mm yy = true ->
  date_leb 15 10 1582 dd mm yy = true ->
  Z.abs yy <= YEAR_BOUND ->
  0 <= n <= 10 ^ 14 ->
  jd_from_date (dd + n) mm yy = jd_from_date dd mm yy + n
  /\ let '(d', m', y') := jd_to_date (jd_from_date (dd + n) mm yy) in
     valid_date d' m' y' = true
     /\ date_leb dd mm yy d' m' y' = true
     /\ jd_from_date d' m' y' = jd_from_date dd mm yy + n.
Proof.
  intros Hv Hera _ Hn.
  assert (E : jd_from_date_Z (dd + n) mm yy = jd_from_date_Z dd mm yy + n).
  { pose proof (valid_gregorian_inv _ _ _ Hv) as [Hm Hd].
    pose proof (days_in_month_le (is_leap_gregorian yy) mm) as H31.
    pose proof (gregorian_era_jd dd mm yy Hm ltac:(lia) Hera) as HG.
    unfold jd_from_date_Z. cbv zeta in HG |- *.
    replace (_ <? 2299161) with false by (symmetry; apply Z.ltb_ge; lia).
    replace (_ <? 2299161) with false by (symmetry; apply Z.ltb_ge; lia).
    lia. }
  assert (V : valid_date dd mm yy = true).
  { unfold valid_date. rewrite Hv, Hera. apply orb_true_r. }
  rewrite !jd_from_date_Z_eq, jd_to_date_Z_eq, E. split; [reflexivity|].
  destruct (jd_to_date_Z_inverse (jd_from_date_Z dd mm yy + n))
    as (d' & m' & y' & -> & V' & F').
  rewrite jd_from_date_Z_eq.
  split; [exact V'|]. split; [|exact F'].
  destruct (date_leb dd mm yy d' m' y') eqn:Hle; [reflexivity|].
  exfalso. destruct (date_leb_total _ _ _ _ _ _ Hle) as [Hge Hne].
  pose proof (jd_from_date_Z_mono _ _ _ _ _ _ V' V Hge) as Hmono.
  apply Hne.
  rewrite <- (valid_date_roundtrip_Z dd mm yy V).
  rewrite <- (valid_date_roundtrip_Z d' m' y' V').
  f_equal. lia.
Qed.

Lemma jd_from_date_day_overflow_witness :
  jd_from_date (28 + 3) 2 2023 = jd_from_date 28 2 2023 + 3
  /\ let '(d', m', y') := jd_to_date (jd_from_date (28 + 3) 2 2023) in
     valid_date d' m' y' = true
     /\ date_leb 28 2 2023 d' m' y' = true
     /\ jd_from_date d' m' y' = jd_from_date 28 2 2023 + 3.
Proof.
  apply (jd_from_date_day_overflow 28 2 2023 3);
    [reflexivity | reflexivity
     | vm_compute; intros E; discriminate E
     | split; vm_compute; intros E; discriminate E].
Defined.

(** ** The date object of a day number, both ways *)

Lemma solar_of_jd_inv (jd : Z) (dt : date) :
  solar_of_jd jd = Return dt ->
  jd_from_date (date_day dt) (date_month dt) (date_year dt) = jd
  /\ valid_date (date_day dt) (date_month dt) (date_year dt) = true.
Proof.
  unfold solar_of_jd. rewrite jd_to_date_Z_eq.
  destruct (jd_to_date_Z_inverse jd) as (dd & mm & yy & -> & Hv & Hfrom).
  unfold dt_date. destruct (_ && _); [|discriminate].
  intros E. injection E as <-. cbn [date_day date_month date_year].
  rewrite jd_from_date_Z_eq. split; assumption.
Qed.

Lemma solar_of_jd_of_date (dd mm yy : Z) :
  valid_date dd mm yy = true -> valid_gregorian dd mm yy = true ->
  1 <= yy <= 9999 ->
  solar_of_jd (jd_from_date dd mm yy) = Return (mk_date yy mm dd).
Proof.
  intros Hv Hg Hy. unfold solar_of_jd.
  rewrite jd_from_date_Z_eq, jd_to_date_Z_eq, (valid_date_roundtrip_Z _ _ _ Hv).
  unfold dt_date, MINYEAR, MAXYEAR. rewrite Hg.
  replace (1 <=? yy) with true by (symmetry; apply Z.leb_le; lia).
  replace (yy <=? 9999) with true by (symmetry; apply Z.leb_le; lia).
  reflexivity.
Qed.

(** ** The date object of a day number *)

Lemma solar_of_jd_gregorian (jd : Z) :
  2299161 <= jd <= 5373484 ->
  exists dt,
    solar_of_jd jd = Return dt
    /\ valid_date (date_day dt) (date_month dt) (date_year dt) = true
    /\ jd_from_date (date_day dt) (date_month dt) (date_year dt) = jd.
Proof.
  intros [Hlo Hhi].
  destruct (jd_to_date_Z_gregorian jd Hlo)
    as (dd & mm & yy & Hto & Hvalid & Hera & Hfrom).
  assert (Hyy : 1582 <= yy <= 9999).
  { pose proof (days_in_month_le (is_leap_gregorian yy) mm) as H31.
    pose proof (valid_gregorian_inv _ _ _ Hvalid) as [Hm Hd].
    split.
    - unfold date_leb in Hera. bool_to_prop; lia.
    - pose proof (gregorian_era_jd dd mm yy Hm ltac:(lia) Hera) as HG.
      cbv zeta in HG. unfold jd_from_date_Z in Hfrom. cbv zeta in Hfrom.
      replace (_ <? 2299161) with false in Hfrom
        by (symmetry; apply Z.ltb_ge; exact HG).
      clear HG Hera Hvalid Hto. zdiv. }
  exists (mk_date yy mm dd). cbn [date_day date_month date_year].
  split.
  - unfold solar_of_jd. rewrite jd_to_date_Z_eq, Hto. unfold dt_date.
    rewrite Hvalid. unfold MINYEAR, MAXYEAR.
    replace (1 <=? yy) with true by (symmetry; apply Z.leb_le; lia).
    replace (yy <=? 9999) with true by (symmetry; apply Z.leb_le; lia).
    reflexivity.
  - split.
    + unfold valid_date. rewrite Hvalid, Hera. apply orb_true_r.
    + rewrite jd_from_date_Z_eq. exact Hfrom.
Qed.

(** ** Sequencing *)

Lemma bind_returns {A B : Type} (c : outcome A) (k : A -> outcome B) :
  (exists a, c = Return a) -> (forall a, exists b, k a = Return b) ->
  exists b, bind c k = Return b.
Proof.
  intros [a ->] Hk. cbn [bind]. apply Hk.
Qed.

(** ** The leap-month scan *)

Section LunarProofs.

Variable get_new_moon_day : Z -> Q -> Z.
Variable get_sun_longitude : Z -> Q -> Z.

Local Abbreviation sector := (new_moon_sector get_new_moon_day get_sun_longitude).
Local Abbreviation scan := (leap_month_scan get_new_moon_day get_sun_longitude).
Local Abbreviation leap_offset :=
  (get_leap_month_offset get_new_moon_day get_sun_longitude).
Local Abbreviation anchors :=
  (month11_anchors get_new_moon_day get_sun_longitude).
Local Abbreviation to_lunar :=
  (convert_solar_to_lunar get_new_moon_day get_sun_longitude).
Local Abbreviation to_solar :=
  (convert_lunar_to_solar get_new_moon_day get_sun_longitude).

(** Entered with [1 <= i <= 13], [arc] the sector of new moon [k + i] and
    at least [14 - i] units of fuel, the loop breaks at some [r] in
    [i+1 .. 14]: no two consecutive sectors were equal before [r - 1], and
    either those of [r - 1] and [r] are equal or [r = 14]. *)
Lemma leap_month_scan_spec (k : Z) (tz : Q) (fuel : nat) :
  forall i : Z,
    1 <= i <= 13 -> 14 - i <= Z.of_nat fuel ->
    exists r,
      scan fuel k tz i (sector k tz i) = Return r
      /\ i + 1 <= r <= 14
      /\ (forall j, i <= j < r - 1 -> sector k tz j <> sector k tz (j + 1))
      /\ (sector k tz (r - 1) = sector k tz r \/ r = 14).
Proof.
  induction fuel as [|fuel IH]; intros i Hi Hfuel.
  - lia.
  - cbn [leap_month_scan]. fold (sector k tz (i + 1)).
    destruct (Z.eqb_spec (sector k tz (i + 1)) (sector k tz i)) as [E | NE].
    + exists (i + 1). cbn [orb].
      split; [reflexivity|]. split; [lia|]. split.
      * intros j Hj. lia.
      * left. replace (i + 1 - 1) with i by lia. symmetry. exact E.
    + cbn [orb]. destruct (Z.geb_spec (i + 1) 14) as [G | L].
      * exists (i + 1).
        split; [reflexivity|]. split; [lia|]. split.
        -- intros j Hj. lia.
        -- right. lia.
      * destruct (IH (i + 1) ltac:(lia) ltac:(lia))
          as (r & Hr & Hrange & Hbefore & Hstop).
        exists r.
        split; [exact Hr|]. split; [lia|]. split; [|exact Hstop].
        intros j Hj. destruct (Z.eq_dec j i) as [-> | Hne].
        -- intros E. apply NE. symmetry. exact E.
        -- apply Hbefore. lia.
Qed.

Lemma get_leap_month_offset_returns (fuel : nat) (a11 : Z) (tz : Q) :
  (13 <= fuel)%nat ->
  exists off, leap_offset fuel a11 tz = Return off /\ 1 <= off <= 13.
Proof.
  intros Hfuel.
  destruct (leap_month_scan_spec (leap_month_index a11) tz fuel 1
              ltac:(lia) ltac:(lia)) as (r & Hr & Hrange & _).
  exists (r - 1). unfold get_leap_month_offset.
  fold (sector (leap_month_index a11) tz 1). rewrite Hr. cbn [bind].
  split; [reflexivity | lia].
Qed.

(** *** Solar to lunar *)

Lemma convert_solar_to_lunar_returns (fuel : nat) (dd mm yy : Z) (tz : Q) :
  (13 <= fuel)%nat ->
  exists l, to_lunar fuel dd mm yy tz = Return l.
Proof.
  intros Hfuel. unfold convert_solar_to_lunar. cbv zeta.
  match goal with
  | |- context [if ?c then (yy, ?x, ?y) else (yy + 1, ?u, ?v)] =>
      destruct c
  end.
  all: apply bind_returns;
    [ match goal with
      | |- context [if ?c then bind _ _ else Return _] => destruct c
      end;
      [ match goal with
        | |- context [get_leap_month_offset _ _ _ ?a _] =>
            destruct (get_leap_month_offset_returns fuel a tz Hfuel)
              as (off & -> & _)
        end; cbn [bind] |]; eexists; reflexivity
    | intros [lunar_month lunar_leap]; eexists; reflexivity ].
Qed.

(** *** Lunar to solar *)

Lemma convert_lunar_to_solar_unfold
    (fuel : nat) (d m y lp : Z) (tz : Q) :
  to_solar fuel d m y lp tz =
  let a11 := fst (anchors m y tz) in
  let b11 := snd (anchors m y tz) in
  if b11 - a11 >? 365 then
    leap_off <- leap_offset fuel a11 tz ;;
    if leap_flag_rejected a11 b11 leap_off m lp
    then Raise InvalidLeapFlag
    else solar_of_jd
           (get_new_moon_day
              (lunar_index a11
               + leap_adjusted_offset a11 b11 leap_off m lp) tz
            + d - 1)
  else solar_of_jd
         (get_new_moon_day (lunar_index a11 + month_offset m) tz + d - 1).
Proof.
  unfold convert_lunar_to_solar.
  destruct (anchors m y tz) as [a11 b11]. cbn [fst snd]. cbv zeta.
  unfold leap_flag_rejected, leap_adjusted_offset, month_offset,
    leap_month_of_offset, lunar_index, solar_of_jd. cbv zeta.
  destruct (b11 - a11 >? 365); cbn [andb bind]; [|reflexivity].
  destruct (leap_offset fuel a11 tz) as [leap_off | e |]; cbn [bind];
    try reflexivity.
  destruct (negb (lp =? 0)); cbn [andb orb].
  - destruct (negb (m =? _)); reflexivity.
  - destruct (_ >=? leap_off); reflexivity.
Qed.

Lemma solar_of_jd_not_leap_error (jd : Z) :
  solar_of_jd jd <> Raise InvalidLeapFlag.
Proof.
  unfold solar_of_jd. destruct (jd_to_date jd) as [[dd mm] yy].
  unfold dt_date. destruct (_ && _); discriminate.
Qed.

Lemma convert_lunar_to_solar_12_months
    (fuel : nat) (d m y lp : Z) (tz : Q) :
  snd (anchors m y tz) - fst (anchors m y tz) <= 365 ->
  to_solar fuel d m y lp tz =
  solar_of_jd
    (get_new_moon_day
       (lunar_index (fst (anchors m y tz)) + month_offset m) tz + d - 1).
Proof.
  intros H12. rewrite convert_lunar_to_solar_unfold. cbv zeta.
  replace (_ >? 365) with false; [reflexivity|].
  symmetry. rewrite Z.gtb_ltb. apply Z.ltb_ge. exact H12.
Qed.

(** *** The claims on the lunar converters *)

(** C8. The scan of [get_leap_month_offset] terminates for every anchor and
    time zone: 13 iterations of the loop (14 sector evaluations) always
    suffice.  The offset returned lies in 1..13; no two consecutive new moons
    before it have equal sectors, and either the new moons at the offset and
    after it have equal sectors (the offset is the index of the first of the
    pair) or the bound was hit and the offset is 13. *)
Theorem get_leap_month_offset_terminates (fuel : nat) (a11 : Z) (tz : Q) :
  (13 <= fuel)%nat ->
  let k := leap_month_index a11 in
  let sector_of :=
    new_moon_sector get_new_moon_day get_sun_longitude k tz in
  exists off,
    get_leap_month_offset get_new_moon_day get_sun_longitude fuel a11 tz
    = Return off
    /\ 1 <= off <= 13
    /\ (forall j, 1 <= j < off -> sector_of j <> sector_of (j + 1))
    /\ (sector_of off = sector_of (off + 1) \/ off = 13).
Proof.
  intros Hfuel k sector_of.
  destruct (leap_month_scan_spec k tz fuel 1 ltac:(lia) ltac:(lia))
    as (r & Hr & Hrange & Hbefore & Hstop).
  exists (r - 1). unfold get_leap_month_offset. fold k.
  fold (sector k tz 1). rewrite Hr. cbn [bind].
  split; [reflexivity|]. split; [lia|]. split.
  - intros j Hj. apply Hbefore. lia.
  - replace (r - 1 + 1) with r by lia.
    destruct Hstop as [E | ->]; [left; exact E | right; reflexivity].
Qed.

(** C9. Solar-to-lunar conversion has no error path: for every day, month,
    year and time zone, [convert_solar_to_lunar] (and [solar_to_lunar] on
    either form of its argument) returns a [LunarDate]; it neither raises
    nor loops. *)
Theorem convert_solar_to_lunar_total (fuel : nat) (tz : Q) :
  (13 <= fuel)%nat ->
  (forall dd mm yy,
     exists l,
       convert_solar_to_lunar get_new_moon_day get_sun_longitude fuel
         dd mm yy tz = Return l)
  /\ (forall d : DateLike,
        exists l,
          solar_to_lunar get_new_moon_day get_sun_longitude fuel d tz
          = Return l).
Proof.
  intros Hfuel. split.
  - intros dd mm yy. apply convert_solar_to_lunar_returns. exact Hfuel.
  - intros [d | dd mm yy]; cbn [solar_to_lunar];
      apply convert_solar_to_lunar_returns; exact Hfuel.
Qed.

(** C3. What the code does where the claim expects InvalidLeapFlag: in a
    12-month lunar year (month-11 anchors at most 365 days apart) the leap
    flag is never looked at, the comparison with the leap month being made
    only under [b11 - a11 > 365].  Whatever the flag, the conversion does
    not raise InvalidLeapFlag and gives the outcome it gives with the flag
    cleared. *)
Theorem leap_flag_unchecked_in_12_month_year
    (fuel : nat) (d m y lp : Z) (tz : Q) :
  snd (month11_anchors get_new_moon_day get_sun_longitude m y tz)
  - fst (month11_anchors get_new_moon_day get_sun_longitude m y tz) <= 365 ->
  convert_lunar_to_solar get_new_moon_day get_sun_longitude fuel d m y lp tz
  <> Raise InvalidLeapFlag
  /\ convert_lunar_to_solar get_new_moon_day get_sun_longitude fuel
       d m y lp tz
     = convert_lunar_to_solar get_new_moon_day get_sun_longitude fuel
         d m y 0 tz.
Proof.
  intros H12. rewrite !(convert_lunar_to_solar_12_months _ _ _ _ _ _ H12).
  split; [apply solar_of_jd_not_leap_error | reflexivity].
Qed.

(** C4. What the code does, for every pair of primitives.
    [convert_lunar_to_solar] raises InvalidLeapFlag exactly when the anchors
    are more than 365 days apart, the flag is set and the month differs from
    [leap_off - 2] (plus 12 when negative), a number in 0..11 that is never
    12.  Otherwise its outcome is the date object of the day number
    [month_start + lunar_day - 1]: whenever a date is returned it is a valid
    calendar date with that day number, and one is returned for every day
    number in 2299161..5373484 (15 October 1582 to 31 December 9999). *)
Theorem convert_lunar_to_solar_outcomes
    (fuel : nat) (d m y lp : Z) (tz : Q) :
  (13 <= fuel)%nat ->
  let a11 :=
    fst (month11_anchors get_new_moon_day get_sun_longitude m y tz) in
  let b11 :=
    snd (month11_anchors get_new_moon_day get_sun_longitude m y tz) in
  let result :=
    convert_lunar_to_solar get_new_moon_day get_sun_longitude fuel
      d m y lp tz in
  exists leap_off,
    get_leap_month_offset get_new_moon_day get_sun_longitude fuel a11 tz
    = Return leap_off
    /\ 0 <= leap_month_of_offset leap_off <= 11
    /\ (result = Raise InvalidLeapFlag
        <-> leap_flag_rejected a11 b11 leap_off m lp = true)
    /\ (leap_flag_rejected a11 b11 leap_off m lp = false ->
        let jd :=
          get_new_moon_day
            (lunar_index a11 + leap_adjusted_offset a11 b11 leap_off m lp)
            tz + d - 1 in
        result = solar_of_jd jd
        /\ (forall dt,
              result = Return dt ->
              valid_date (date_day dt) (date_month dt) (date_year dt) = true
              /\ jd_from_date (date_day dt) (date_month dt) (date_year dt)
                 = jd)
        /\ (2299161 <= jd <= 5373484 ->
            exists dt,
              result = Return dt
              /\ valid_date (date_day dt) (date_month dt) (date_year dt)
                 = true
              /\ jd_from_date (date_day dt) (date_month dt) (date_year dt)
                 = jd)).
Proof.
  intros Hfuel a11 b11 result.
  destruct (get_leap_month_offset_returns fuel a11 tz Hfuel)
    as (leap_off & Hoff & Hrange).
  exists leap_off. split; [exact Hoff|].
  split.
  { unfold leap_month_of_offset. cbv zeta.
    destruct (Z.ltb_spec (leap_off - 2) 0); lia. }
  assert (Hshape :
    result =
    if leap_flag_rejected a11 b11 leap_off m lp
    then Raise InvalidLeapFlag
    else solar_of_jd
           (get_new_moon_day
              (lunar_index a11
               + leap_adjusted_offset a11 b11 leap_off m lp) tz + d - 1)).
  { unfold result. rewrite convert_lunar_to_solar_unfold. cbv zeta.
    fold a11 b11. rewrite Hoff. cbn [bind].
    unfold leap_flag_rejected, leap_adjusted_offset.
    destruct (b11 - a11 >? 365); reflexivity. }
  split.
  - rewrite Hshape.
    destruct (leap_flag_rejected a11 b11 leap_off m lp).
    + split; reflexivity.
    + split; [|discriminate].
      intros E. exfalso. exact (solar_of_jd_not_leap_error _ E).
  - intros Hok jd. rewrite Hshape, Hok. split; [reflexivity|]. split.
    + intros dt Hdt. destruct (solar_of_jd_inv jd dt Hdt) as [H1 H2].
      split; [exact H2 | exact H1].
    + intros Hjd. destruct (solar_of_jd_gregorian jd Hjd) as (dt & H1 & H2).
      exists dt. split; [exact H1 | exact H2].
Qed.

(** The instance of the spec: if 2004 is a 13-month year whose leap offset
    is 4 (leap month 2), then LunarDate(1, 3, 2004, leap=True) is
    rejected. *)
Lemma leap_flag_2004_month_3 (fuel : nat) (tz : Q) :
  snd (anchors 3 2004 tz) - fst (anchors 3 2004 tz) > 365 ->
  leap_offset fuel (fst (anchors 3 2004 tz)) tz = Return 4 ->
  lunar_to_solar get_new_moon_day get_sun_longitude fuel
    (mkLunarDate 1 3 2004 true) tz
  = Raise InvalidLeapFlag.
Proof.
  intros H13 Hoff. unfold lunar_to_solar. cbn [day month year leap].
  rewrite convert_lunar_to_solar_unfold. cbv zeta.
  replace (_ >? 365) with true
    by (symmetry; rewrite Z.gtb_ltb; apply Z.ltb_lt; lia).
  rewrite Hoff. cbn [bind]. unfold leap_flag_rejected.
  replace (_ >? 365) with true
    by (symmetry; rewrite Z.gtb_ltb; apply Z.ltb_lt; lia).
  reflexivity.
Qed.

End LunarProofs.

(** ** The converters on the reference instance *)

Lemma get_leap_month_offset_terminates_witness :
  let k := leap_month_index 2460291 in
  let sector_of :=
    new_moon_sector mean_new_moon_day mean_sun_longitude k TZ_VN in
  exists off,
    get_leap_month_offset mean_new_moon_day mean_sun_longitude 13 2460291
      TZ_VN = Return off
    /\ 1 <= off <= 13
    /\ (forall j, 1 <= j < off -> sector_of j <> sector_of (j + 1))
    /\ (sector_of off = sector_of (off + 1) \/ off = 13).
Proof.
  apply (get_leap_month_offset_terminates mean_new_moon_day
           mean_sun_longitude 13 2460291 TZ_VN).
  apply le_n.
Defined.

Lemma convert_solar_to_lunar_total_witness :
  (forall dd mm yy,
     exists l,
       convert_solar_to_lunar mean_new_moon_day mean_sun_longitude 13
         dd mm yy TZ_VN = Return l)
  /\ (forall d : DateLike,
        exists l,
          solar_to_lunar mean_new_moon_day mean_sun_longitude 13 d TZ_VN
          = Return l).
Proof.
  apply (convert_solar_to_lunar_total mean_new_moon_day mean_sun_longitude
           13 TZ_VN).
  apply le_n.
Defined.

Lemma leap_flag_unchecked_in_12_month_year_witness :
  snd (month11_anchors mean_new_moon_day mean_sun_longitude 1 2024 TZ_VN)
  - fst (month11_anchors mean_new_moon_day mean_sun_longitude 1 2024 TZ_VN)
  <= 365
  /\ convert_lunar_to_solar mean_new_moon_day mean_sun_longitude 13
       1 1 2024 1 TZ_VN <> Raise InvalidLeapFlag
  /\ convert_lunar_to_solar mean_new_moon_day mean_sun_longitude 13
       1 1 2024 1 TZ_VN
     = convert_lunar_to_solar mean_new_moon_day mean_sun_longitude 13
         1 1 2024 0 TZ_VN.
Proof.
  split.
  - vm_compute. intros E. discriminate E.
  - apply (leap_flag_unchecked_in_12_month_year mean_new_moon_day
             mean_sun_longitude 13 1 1 2024 1 TZ_VN).
    vm_compute. intros E. discriminate E.
Defined.

(** On the reference instance lunar year 2024 has 12 months (anchors 355
    days apart), and LunarDate(1, 1, 2024, leap=True) is converted to
    2024-02-10 without any error: no pair of primitives makes the flag be
    rejected in every 12-month year. *)
Lemma leap_flag_12_month_year_accepted :
  snd (month11_anchors mean_new_moon_day mean_sun_longitude 1 2024 TZ_VN)
  - fst (month11_anchors mean_new_moon_day mean_sun_longitude 1 2024 TZ_VN)
  = 355
  /\ lunar_to_solar mean_new_moon_day mean_sun_longitude 13
       (mkLunarDate 1 1 2024 true) TZ_VN
     = Return (mk_date 2024 2 10)
  /\ ~ (forall nm sl fuel d m y tz,
          snd (month11_anchors nm sl m y tz)
          - fst (month11_anchors nm sl m y tz) <= 365 ->
          convert_lunar_to_solar nm sl fuel d m y 1 tz
          = Raise InvalidLeapFlag).
Proof.
  split; [vm_compute; reflexivity|].
  split; [vm_compute; reflexivity|].
  intros H.
  specialize (H mean_new_moon_day mean_sun_longitude 13%nat 1 1 2024 TZ_VN).
  assert (Hle :
    snd (month11_anchors mean_new_moon_day mean_sun_longitude 1 2024 TZ_VN)
    - fst (month11_anchors mean_new_moon_day mean_sun_longitude 1 2024 TZ_VN)
    <= 365) by (vm_compute; intros E; discriminate E).
  specialize (H Hle). vm_compute in H. discriminate H.
Qed.

Lemma convert_lunar_to_solar_outcomes_witness :
  (exists leap_off,
     get_leap_month_offset mean_new_moon_day mean_sun_longitude 13
       (fst (month11_anchors mean_new_moon_day mean_sun_longitude 3 2004
               TZ_VN)) TZ_VN
     = Return leap_off
     /\ convert_lunar_to_solar mean_new_moon_day mean_sun_longitude 13
          1 3 2004 1 TZ_VN = Raise InvalidLeapFlag)
  /\ (exists dt,
        convert_lunar_to_solar mean_new_moon_day mean_sun_longitude 13
          1 1 2024 0 TZ_VN = Return dt
        /\ valid_date (date_day dt) (date_month dt) (date_year dt) = true
        /\ jd_from_date (date_day dt) (date_month dt) (date_year dt)
           = 2460351).
Proof.
  split.
  - destruct (convert_lunar_to_solar_outcomes mean_new_moon_day
                mean_sun_longitude 13 1 3 2004 1 TZ_VN (le_n 13))
      as (leap_off & Hoff & _ & Hiff & _).
    exists leap_off. split; [exact Hoff|].
    apply Hiff. vm_compute in Hoff. injection Hoff as <-.
    vm_compute. reflexivity.
  - destruct (convert_lunar_to_solar_outcomes mean_new_moon_day
                mean_sun_longitude 13 1 1 2024 0 TZ_VN (le_n 13))
      as (leap_off & Hoff & _ & _ & Hok).
    vm_compute in Hoff. injection Hoff as <-.
    destruct (Hok eq_refl) as (_ & _ & Hex).
    apply Hex. vm_compute. split; intros E; discriminate E.
Defined.

(** On the reference instance: a set leap flag in lunar year 2024, which
    has no leap month, is accepted; the lunar date of Julian 29 February
    1500, LunarDate(1, 2, 1500), gets neither a date nor InvalidLeapFlag,
    the date constructor raises. *)
Lemma convert_lunar_to_solar_reference_outcomes :
  convert_lunar_to_solar mean_new_moon_day mean_sun_longitude 13
    15 8 2024 1 TZ_VN = Return (mk_date 2024 9 17)
  /\ convert_solar_to_lunar mean_new_moon_day mean_sun_longitude 13
       29 2 1500 TZ_VN = Return (mkLunarDate 1 2 1500 false)
  /\ convert_lunar_to_solar mean_new_moon_day mean_sun_longitude 13
       1 2 1500 0 TZ_VN = Raise DateValueError.
Proof. repeat split; vm_compute; reflexivity. Qed.

(** * Further properties of the lunar converters *)

(** ** Solar to lunar and back *)

Ltac split_comparisons :=
  repeat match goal with
  | |- context [?a >? ?b] => destruct (Z.gtb_spec a b)
  | |- context [?a >=? ?b] => destruct (Z.geb_spec a b)
  | |- context [?a <? ?b] => destruct (Z.ltb_spec a b)
  | |- context [?a =? ?b] => destruct (Z.eqb_spec a b)
  | |- _ => progress cbn [andb orb negb]
  end.

(** What [convert_lunar_to_solar] makes of the month and flag computed by
    [convert_solar_to_lunar] from [diff] and the leap offset. *)
Lemma month_roundtrip (thirteen : bool) (a11 b11 lo diff : Z) :
  (b11 - a11 >? 365) = thirteen ->
  1 <= lo <= 13 -> 0 <= diff ->
  leap_adjusted_month a11 b11 lo diff <= 22 ->
  ~ (thirteen = true /\ lo = 2 /\ diff = 2) ->
  let lm := wrap_month (leap_adjusted_month a11 b11 lo diff) in
  let lp := if thirteen && (diff =? lo) then 1 else 0 in
  leap_flag_rejected a11 b11 lo lm lp = false
  /\ leap_adjusted_offset a11 b11 lo lm lp = diff
  /\ (lm <? 11) = negb ((lm >=? 11) && (diff <? 4)).
Proof.
  intros H13 Hlo Hdiff H22 Hbug.
  unfold leap_flag_rejected, leap_adjusted_offset, month_offset,
    leap_month_of_offset, wrap_month, leap_adjusted_month in *.
  cbv zeta. rewrite H13 in *. clear H13.
  destruct thirteen; cbn [andb orb negb] in *.
  - destruct (Z.geb_spec diff lo) as [Hge | Hlt].
    + destruct (Z.eqb_spec diff lo) as [-> | Hne].
      * repeat split; split_comparisons; try reflexivity; try lia.
      * repeat split; split_comparisons; try reflexivity; try lia.
    + destruct (Z.eqb_spec diff lo) as [-> | Hne]; [lia|].
      repeat split; split_comparisons; try reflexivity; try lia.
  - repeat split; split_comparisons; try reflexivity; try lia.
Qed.


Section LunarFurther.

Variable get_new_moon_day : Z -> Q -> Z.
Variable get_sun_longitude : Z -> Q -> Z.

Local Abbreviation M11 :=
  (get_lunar_month11 get_new_moon_day get_sun_longitude).
Local Abbreviation leap_offset :=
  (get_leap_month_offset get_new_moon_day get_sun_longitude).
Local Abbreviation to_lunar :=
  (convert_solar_to_lunar get_new_moon_day get_sun_longitude).
Local Abbreviation to_solar :=
  (convert_lunar_to_solar get_new_moon_day get_sun_longitude).
Local Abbreviation month_start_of :=
  (solar_month_start get_new_moon_day).
Local Abbreviation anchors_of :=
  (solar_anchors get_new_moon_day get_sun_longitude).

(** The anchors chosen by [convert_solar_to_lunar] are those of two
    consecutive years, the later one being the provisional lunar year. *)
Lemma solar_anchors_shape (yy ms : Z) (tz : Q) :
  exists ly,
    (ly = yy \/ ly = yy + 1)
    /\ anchors_of yy ms tz = (ly, M11 (ly - 1) tz, M11 ly tz).
Proof.
  unfold solar_anchors. cbv zeta.
  destruct (_ >=? ms).
  - exists yy. split; [left; reflexivity | reflexivity].
  - exists (yy + 1). split; [right; reflexivity|].
    replace (yy + 1 - 1) with yy by lia. reflexivity.
Qed.

(** The result of [convert_solar_to_lunar] in closed form. *)
Lemma convert_solar_to_lunar_result
    (fuel : nat) (dd mm yy : Z) (tz : Q) :
  (13 <= fuel)%nat ->
  let jd := jd_from_date dd mm yy in
  let ms := month_start_of jd tz in
  forall ly a11 b11,
    anchors_of yy ms tz = (ly, a11, b11) ->
    let diff := lunation_diff ms a11 in
    exists lo,
      leap_offset fuel a11 tz = Return lo
      /\ 1 <= lo <= 13
      /\ let lm := wrap_month (leap_adjusted_month a11 b11 lo diff) in
         to_lunar fuel dd mm yy tz =
         Return (mkLunarDate
                   (jd - ms + 1) lm
                   (if (lm >=? 11) && (diff <? 4) then ly - 1 else ly)
                   ((b11 - a11 >? 365) && (diff =? lo))).
Proof.
  intros Hfuel jd ms ly a11 b11 Hanch diff.
  destruct (get_leap_month_offset_returns get_new_moon_day get_sun_longitude
              fuel a11 tz Hfuel) as (lo & Hlo & Hrange).
  exists lo. split; [exact Hlo|]. split; [exact Hrange|].
  cbv zeta. unfold convert_solar_to_lunar. cbv zeta.
  change (if get_new_moon_day
               (_int_floor
                  ((float (jd_from_date dd mm yy) - 2415021.076998695)
                   / 29.530588853) + 1) tz >? jd_from_date dd mm yy
          then get_new_moon_day
                 (_int_floor
                    ((float (jd_from_date dd mm yy) - 2415021.076998695)
                     / 29.530588853)) tz
          else get_new_moon_day
                 (_int_floor
                    ((float (jd_from_date dd mm yy) - 2415021.076998695)
                     / 29.530588853) + 1) tz)
    with ms.
  change (if M11 yy tz >=? ms
          then (yy, M11 (yy - 1) tz, M11 yy tz)
          else (yy + 1, M11 yy tz, M11 (yy + 1) tz))
    with (anchors_of yy ms tz).
  rewrite Hanch. fold jd. fold (lunation_diff ms a11). fold diff.
  unfold leap_adjusted_month, wrap_month.
  destruct (b11 - a11 >? 365); cbn [andb bind]; [|reflexivity].
  rewrite Hlo. cbn [bind].
  destruct (Z.geb_spec diff lo) as [Hge | Hlt].
  - destruct (Z.eqb_spec diff lo); reflexivity.
  - destruct (Z.eqb_spec diff lo); [lia | reflexivity].
Qed.

(** X5. The lunar year returned by [convert_solar_to_lunar] is the solar
    year, the one before or the one after; it is the one before only in
    lunar months 11 and 12. *)
Theorem convert_solar_to_lunar_year
    (fuel : nat) (dd mm yy : Z) (tz : Q) (l : LunarDate) :
  (13 <= fuel)%nat ->
  convert_solar_to_lunar get_new_moon_day get_sun_longitude fuel dd mm yy tz
  = Return l ->
  yy - 1 <= year l <= yy + 1
  /\ (year l = yy - 1 -> month l = 11 \/ month l = 12).
Proof.
  intros Hfuel Hl.
  destruct (solar_anchors_shape yy (month_start_of (jd_from_date dd mm yy) tz)
              tz) as (ly & Hly & Hanch).
  destruct (convert_solar_to_lunar_result fuel dd mm yy tz Hfuel _ _ _ Hanch)
    as (lo & _ & Hlo & Hres).
  cbv zeta in Hres. rewrite Hres in Hl. injection Hl as <-.
  cbn [year month].
  match goal with
  | |- context [if ?c then ly - 1 else ly] => destruct c eqn:Hc
  end.
  - apply andb_prop in Hc. destruct Hc as [Hge Hlt].
    rewrite Z.geb_leb in Hge. apply Z.leb_le in Hge. apply Z.ltb_lt in Hlt.
    split; [lia|]. intros _. revert Hge.
    unfold wrap_month, leap_adjusted_month.
    match goal with
    | |- context [if ?c then _ + 10 else _ + 11] => destruct c
    end;
      match goal with
      | |- context [?a >? 12] => destruct (Z.gtb_spec a 12)
      end; lia.
  - split; lia.
Qed.

(** X6. [convert_solar_to_lunar] flags a leap month only in a 13-month lunar
    year: the anchors of two consecutive years are then more than 365 days
    apart, and the month starts exactly [get_leap_month_offset] lunations
    after the first of them. *)
Theorem convert_solar_to_lunar_leap
    (fuel : nat) (dd mm yy : Z) (tz : Q) (l : LunarDate) :
  (13 <= fuel)%nat ->
  convert_solar_to_lunar get_new_moon_day get_sun_longitude fuel dd mm yy tz
  = Return l ->
  leap l = true ->
  let ms := solar_month_start get_new_moon_day (jd_from_date dd mm yy) tz in
  exists ly,
    (ly = yy \/ ly = yy + 1)
    /\ get_lunar_month11 get_new_moon_day get_sun_longitude ly tz
       - get_lunar_month11 get_new_moon_day get_sun_longitude (ly - 1) tz
       > 365
    /\ get_leap_month_offset get_new_moon_day get_sun_longitude fuel
         (get_lunar_month11 get_new_moon_day get_sun_longitude (ly - 1) tz)
         tz
       = Return
           (lunation_diff ms
              (get_lunar_month11 get_new_moon_day get_sun_longitude
                 (ly - 1) tz)).
Proof.
  intros Hfuel Hl Hleap ms.
  destruct (solar_anchors_shape yy ms tz) as (ly & Hly & Hanch).
  destruct (convert_solar_to_lunar_result fuel dd mm yy tz Hfuel _ _ _ Hanch)
    as (lo & Hlo & _ & Hres).
  cbv zeta in Hres. rewrite Hres in Hl. injection Hl as <-.
  cbn [leap] in Hleap. apply andb_prop in Hleap. destruct Hleap as [H13 Heq].
  rewrite Z.gtb_ltb in H13. apply Z.ltb_lt in H13. apply Z.eqb_eq in Heq.
  exists ly. split; [exact Hly|]. split; [lia|].
  fold ms in Heq. rewrite Heq. exact Hlo.
Qed.

(** X7. When the month start lies 0 to 13 whole lunations after the anchor
    ([0 <= diff <= 13]), the lunar month returned is in 1..12; the lunar day
    is the day number minus the month start plus one. *)
Theorem convert_solar_to_lunar_month_range
    (fuel : nat) (dd mm yy : Z) (tz : Q) (l : LunarDate) (ly a11 b11 : Z) :
  (13 <= fuel)%nat ->
  convert_solar_to_lunar get_new_moon_day get_sun_longitude fuel dd mm yy tz
  = Return l ->
  let jd := jd_from_date dd mm yy in
  let ms := solar_month_start get_new_moon_day jd tz in
  solar_anchors get_new_moon_day get_sun_longitude yy ms tz = (ly, a11, b11) ->
  0 <= lunation_diff ms a11 <= 13 ->
  1 <= month l <= 12 /\ day l = jd - ms + 1.
Proof.
  intros Hfuel Hl jd ms Hanch Hdiff.
  destruct (convert_solar_to_lunar_result fuel dd mm yy tz Hfuel _ _ _ Hanch)
    as (lo & _ & Hlo & Hres).
  cbv zeta in Hres. rewrite Hres in Hl. injection Hl as <-.
  cbn [month day]. split; [|reflexivity].
  fold jd ms. unfold wrap_month, leap_adjusted_month.
  destruct (b11 - a11 >? 365); cbn [andb].
  - destruct (Z.geb_spec (lunation_diff ms a11) lo).
    + destruct (Z.gtb_spec (lunation_diff ms a11 + 10) 12); lia.
    + destruct (Z.gtb_spec (lunation_diff ms a11 + 11) 12); lia.
  - destruct (Z.gtb_spec (lunation_diff ms a11 + 11) 12); lia.
Qed.

Lemma leap_month_never_12 (lo : Z) :
  1 <= lo <= 13 -> (12 =? leap_month_of_offset lo) = false.
Proof.
  intros H. apply Z.eqb_neq. unfold leap_month_of_offset. cbv zeta.
  destruct (Z.ltb_spec (lo - 2) 0); lia.
Qed.

(** X8. [convert_lunar_to_solar] never accepts a leap twelfth month: in a
    13-month lunar year, month 12 with the leap flag set raises
    InvalidLeapFlag whatever the leap offset, because the leap month it
    computes lies in 0..11. *)
Theorem leap_month_12_rejected
    (fuel : nat) (d y lp : Z) (tz : Q) :
  (13 <= fuel)%nat ->
  snd (month11_anchors get_new_moon_day get_sun_longitude 12 y tz)
  - fst (month11_anchors get_new_moon_day get_sun_longitude 12 y tz) > 365 ->
  lp <> 0 ->
  convert_lunar_to_solar get_new_moon_day get_sun_longitude fuel d 12 y lp tz
  = Raise InvalidLeapFlag.
Proof.
  intros Hfuel H13 Hlp.
  rewrite convert_lunar_to_solar_unfold. cbv zeta.
  set (a11 := fst (month11_anchors get_new_moon_day get_sun_longitude 12 y tz))
    in *.
  set (b11 := snd (month11_anchors get_new_moon_day get_sun_longitude 12 y tz))
    in *.
  assert (Hgt : (b11 - a11 >? 365) = true)
    by (rewrite Z.gtb_ltb; apply Z.ltb_lt; lia).
  rewrite Hgt.
  destruct (get_leap_month_offset_returns get_new_moon_day get_sun_longitude
              fuel a11 tz Hfuel) as (lo & Hlo & Hrange).
  rewrite Hlo. cbn [bind].
  unfold leap_flag_rejected. rewrite Hgt.
  replace (lp =? 0) with false by (symmetry; apply Z.eqb_neq; exact Hlp).
  rewrite (leap_month_never_12 lo Hrange). reflexivity.
Qed.

(** X9. The two converters disagree on a leap twelfth month: whenever
    [convert_solar_to_lunar] returns month 12 with the leap flag set,
    [lunar_to_solar] raises InvalidLeapFlag on that very lunar date. *)
Theorem leap_month_12_not_converted_back
    (fuel : nat) (dd mm yy : Z) (tz : Q) (l : LunarDate) :
  (13 <= fuel)%nat ->
  convert_solar_to_lunar get_new_moon_day get_sun_longitude fuel dd mm yy tz
  = Return l ->
  month l = 12 -> leap l = true ->
  lunar_to_solar get_new_moon_day get_sun_longitude fuel l tz
  = Raise InvalidLeapFlag.
Proof.
  intros Hfuel Hl Hm12 Hleap.
  set (ms := month_start_of (jd_from_date dd mm yy) tz).
  destruct (solar_anchors_shape yy ms tz) as (ly & Hly & Hanch).
  destruct (convert_solar_to_lunar_result fuel dd mm yy tz Hfuel _ _ _ Hanch)
    as (lo & Hlo & Hrange & Hres).
  cbv zeta in Hres. fold ms in Hres. rewrite Hres in Hl.
  injection Hl as <-. cbn [month leap] in Hm12, Hleap.
  apply andb_prop in Hleap. destruct Hleap as [H13 Heq].
  apply Z.eqb_eq in Heq.
  set (a11 := M11 (ly - 1) tz) in *. set (b11 := M11 ly tz) in *.
  assert (Hdiff : lunation_diff ms a11 = 2).
  { revert Hm12. unfold wrap_month, leap_adjusted_month. rewrite H13.
    cbn [andb]. rewrite Heq.
    replace (lo >=? lo) with true
      by (symmetry; rewrite Z.geb_leb; apply Z.leb_le; lia).
    destruct (Z.gtb_spec (lo + 10) 12); lia. }
  unfold lunar_to_solar. cbn [day month year leap].
  rewrite Hm12, H13, Hdiff, <- Heq, Hdiff. cbn [andb Z.geb Z.ltb Z.eqb Z.compare
    Pos.compare Pos.compare_cont Pos.eqb].
  rewrite convert_lunar_to_solar_unfold. cbv zeta.
  unfold month11_anchors. cbn [Z.ltb Z.compare Pos.compare Pos.compare_cont
    fst snd].
  replace (ly - 1 + 1) with ly by lia. fold a11 b11. rewrite H13.
  rewrite <- Heq, Hdiff in Hlo. rewrite Hlo. cbn [bind].
  unfold leap_flag_rejected. rewrite H13. reflexivity.
Qed.

(** The day enters [convert_lunar_to_solar] only through the last step: all
    days of a lunar month are counted from one month start. *)
Lemma convert_lunar_to_solar_month_start
    (fuel : nat) (m y lp : Z) (tz : Q) :
  exists ms,
    forall d dt,
      to_solar fuel d m y lp tz = Return dt ->
      solar_of_jd (ms + d - 1) = Return dt.
Proof.
  set (a11 := fst (month11_anchors get_new_moon_day get_sun_longitude m y tz)).
  set (b11 := snd (month11_anchors get_new_moon_day get_sun_longitude m y tz)).
  destruct (b11 - a11 >? 365) eqn:H13.
  - destruct (leap_offset fuel a11 tz) as [lo | e |] eqn:Hlo.
    + exists (get_new_moon_day
                (lunar_index a11 + leap_adjusted_offset a11 b11 lo m lp) tz).
      intros d dt. rewrite convert_lunar_to_solar_unfold. cbv zeta.
      fold a11 b11. rewrite H13, Hlo. cbn [bind].
      destruct (leap_flag_rejected a11 b11 lo m lp); [discriminate|].
      intros E; exact E.
    + exists 0. intros d dt. rewrite convert_lunar_to_solar_unfold. cbv zeta.
      fold a11 b11. rewrite H13, Hlo. cbn [bind]. discriminate.
    + exists 0. intros d dt. rewrite convert_lunar_to_solar_unfold. cbv zeta.
      fold a11 b11. rewrite H13, Hlo. cbn [bind]. discriminate.
  - exists (get_new_moon_day (lunar_index a11 + month_offset m) tz).
    intros d dt. rewrite convert_lunar_to_solar_unfold. cbv zeta.
    fold a11 b11. rewrite H13. intros E; exact E.
Qed.

(** X10. [convert_lunar_to_solar] does not validate the lunar day: when it
    returns a date for day [d] and for day [d + n] of the same lunar month,
    the second date is exactly [n] days after the first, whether or not the
    month has that many days. *)
Theorem convert_lunar_to_solar_day_shift
    (fuel : nat) (d n m y lp : Z) (tz : Q) (dt1 dt2 : date) :
  convert_lunar_to_solar get_new_moon_day get_sun_longitude fuel
    d m y lp tz = Return dt1 ->
  convert_lunar_to_solar get_new_moon_day get_sun_longitude fuel
    (d + n) m y lp tz = Return dt2 ->
  jd_from_date (date_day dt2) (date_month dt2) (date_year dt2)
  = jd_from_date (date_day dt1) (date_month dt1) (date_year dt1) + n.
Proof.
  intros H1 H2.
  destruct (convert_lunar_to_solar_month_start fuel m y lp tz) as (ms & Hms).
  apply Hms in H1. apply Hms in H2.
  apply solar_of_jd_inv in H1. apply solar_of_jd_inv in H2.
  destruct H1 as [-> _]. destruct H2 as [-> _]. lia.
Qed.

(** X11. Solar to lunar and back.  Take a date that [datetime.date] can
    hold, whose lunar month starts [diff >= 0] lunations after the anchor
    with a month number below 23 before wrapping, is not a leap twelfth
    month, and is found again by index from the anchor.  Then
    [lunar_to_solar] of [convert_solar_to_lunar] returns the date. *)
Theorem solar_lunar_solar_roundtrip
    (fuel : nat) (dd mm yy : Z) (tz : Q) (ly a11 b11 lo : Z) :
  (13 <= fuel)%nat ->
  valid_date dd mm yy = true -> valid_gregorian dd mm yy = true ->
  1 <= yy <= 9999 ->
  let jd := jd_from_date dd mm yy in
  let ms := solar_month_start get_new_moon_day jd tz in
  solar_anchors get_new_moon_day get_sun_longitude yy ms tz = (ly, a11, b11) ->
  get_leap_month_offset get_new_moon_day get_sun_longitude fuel a11 tz
  = Return lo ->
  let diff := lunation_diff ms a11 in
  0 <= diff ->
  leap_adjusted_month a11 b11 lo diff <= 22 ->
  ~ (b11 - a11 > 365 /\ lo = 2 /\ diff = 2) ->
  get_new_moon_day (lunar_index a11 + diff) tz = ms ->
  (l <- convert_solar_to_lunar get_new_moon_day get_sun_longitude fuel
          dd mm yy tz ;;
   lunar_to_solar get_new_moon_day get_sun_longitude fuel l tz)
  = Return (mk_date yy mm dd).
Proof.
  intros Hfuel Hv Hg Hy jd ms Hanch Hlo diff Hdiff H22 Hbug Hindex.
  destruct (solar_anchors_shape yy ms tz) as (ly0 & _ & Hshape).
  rewrite Hanch in Hshape. injection Hshape as <- Ea Eb.
  destruct (convert_solar_to_lunar_result fuel dd mm yy tz Hfuel _ _ _ Hanch)
    as (lo' & Hlo' & Hrange & Hres).
  fold jd ms in Hlo'. rewrite Hlo in Hlo'. injection Hlo' as <-.
  cbv zeta in Hres. fold jd ms diff in Hres. rewrite Hres. cbn [bind].
  unfold lunar_to_solar. cbn [day month year leap].
  destruct (month_roundtrip (b11 - a11 >? 365) a11 b11 lo diff eq_refl
              Hrange Hdiff H22) as (Hrej & Hoff & Hside).
  { intros (H13 & H2 & H2'). apply Hbug.
    rewrite Z.gtb_ltb in H13. apply Z.ltb_lt in H13. lia. }
  cbv zeta in Hrej, Hoff, Hside.
  set (lm := wrap_month (leap_adjusted_month a11 b11 lo diff)) in *.
  set (lp := if (b11 - a11 >? 365) && (diff =? lo) then 1 else 0) in *.
  rewrite convert_lunar_to_solar_unfold. cbv zeta.
  assert (Hanchors :
    month11_anchors get_new_moon_day get_sun_longitude lm
      (if (lm >=? 11) && (diff <? 4) then ly - 1 else ly) tz = (a11, b11)).
  { unfold month11_anchors. rewrite Hside.
    destruct ((lm >=? 11) && (diff <? 4)); cbn [negb].
    - replace (ly - 1 + 1) with ly by lia. rewrite Ea, Eb. reflexivity.
    - rewrite Ea, Eb. reflexivity. }
  rewrite Hanchors. cbn [fst snd].
  assert (Hjd : solar_of_jd (ms + (jd - ms + 1) - 1) = Return (mk_date yy mm dd)).
  { replace (ms + (jd - ms + 1) - 1) with jd by lia.
    apply solar_of_jd_of_date; assumption. }
  destruct (b11 - a11 >? 365) eqn:H13.
  - rewrite Hlo. cbn [bind]. rewrite Hrej, Hoff, Hindex. exact Hjd.
  - unfold leap_adjusted_offset in Hoff. rewrite H13 in Hoff.
    cbn [andb] in Hoff. rewrite Hoff, Hindex. exact Hjd.
Qed.

End LunarFurther.

(** ** The further properties on the reference instance *)

Lemma convert_solar_to_lunar_year_witness :
  2024 - 1 <= 2023 <= 2024 + 1 /\ (2023 = 2024 - 1 -> 11 = 11 \/ 11 = 12).
Proof.
  apply (convert_solar_to_lunar_year mean_new_moon_day mean_sun_longitude
           13 1 1 2024 TZ_VN (mkLunarDate 21 11 2023 false)).
  - apply le_n.
  - vm_compute. reflexivity.
Defined.

Lemma convert_solar_to_lunar_leap_witness :
  exists ly,
    (ly = 2004 \/ ly = 2004 + 1)
    /\ get_lunar_month11 mean_new_moon_day mean_sun_longitude ly TZ_VN
       - get_lunar_month11 mean_new_moon_day mean_sun_longitude (ly - 1) TZ_VN
       > 365
    /\ get_leap_month_offset mean_new_moon_day mean_sun_longitude 13
         (get_lunar_month11 mean_new_moon_day mean_sun_longitude (ly - 1)
            TZ_VN) TZ_VN
       = Return
           (lunation_diff
              (solar_month_start mean_new_moon_day (jd_from_date 25 1 2004)
                 TZ_VN)
              (get_lunar_month11 mean_new_moon_day mean_sun_longitude
                 (ly - 1) TZ_VN)).
Proof.
  apply (convert_solar_to_lunar_leap mean_new_moon_day mean_sun_longitude
           13 25 1 2004 TZ_VN (mkLunarDate 4 12 2003 true)).
  - apply le_n.
  - vm_compute. reflexivity.
  - reflexivity.
Defined.

Lemma convert_solar_to_lunar_month_range_witness :
  1 <= 1 <= 12
  /\ 1 = jd_from_date 10 2 2024
         - solar_month_start mean_new_moon_day (jd_from_date 10 2 2024) TZ_VN
         + 1.
Proof.
  apply (convert_solar_to_lunar_month_range mean_new_moon_day
           mean_sun_longitude 13 10 2 2024 TZ_VN (mkLunarDate 1 1 2024 false)
           2024 2460291 2460646).
  - apply le_n.
  - vm_compute. reflexivity.
  - vm_compute. reflexivity.
  - vm_compute. split; intros E; discriminate E.
Defined.

Lemma leap_month_12_rejected_witness :
  convert_lunar_to_solar mean_new_moon_day mean_sun_longitude 13
    4 12 2003 1 TZ_VN
  = Raise InvalidLeapFlag.
Proof.
  apply (leap_month_12_rejected mean_new_moon_day mean_sun_longitude
           13 4 2003 1 TZ_VN).
  - apply le_n.
  - vm_compute. reflexivity.
  - intros E. discriminate E.
Defined.

Lemma leap_month_12_not_converted_back_witness :
  lunar_to_solar mean_new_moon_day mean_sun_longitude 13
    (mkLunarDate 4 12 2003 true) TZ_VN
  = Raise InvalidLeapFlag.
Proof.
  apply (leap_month_12_not_converted_back mean_new_moon_day
           mean_sun_longitude 13 25 1 2004 TZ_VN
           (mkLunarDate 4 12 2003 true)).
  - apply le_n.
  - vm_compute. reflexivity.
  - reflexivity.
  - reflexivity.
Defined.

Lemma convert_lunar_to_solar_day_shift_witness :
  jd_from_date 11 3 2024 = jd_from_date 10 2 2024 + 30.
Proof.
  apply (convert_lunar_to_solar_day_shift mean_new_moon_day
           mean_sun_longitude 13 1 30 1 2024 0 TZ_VN
           (mk_date 2024 2 10) (mk_date 2024 3 11)).
  - vm_compute. reflexivity.
  - vm_compute. reflexivity.
Defined.

Lemma solar_lunar_solar_roundtrip_witness :
  (l <- convert_solar_to_lunar mean_new_moon_day mean_sun_longitude 13
          10 7 2004 TZ_VN ;;
   lunar_to_solar mean_new_moon_day mean_sun_longitude 13 l TZ_VN)
  = Return (mk_date 2004 7 10).
Proof.
  apply (solar_lunar_solar_roundtrip mean_new_moon_day mean_sun_longitude
           13 10 7 2004 TZ_VN 2004 2452968 2453352 2).
  - apply le_n.
  - reflexivity.
  - reflexivity.
  - lia.
  - vm_compute. reflexivity.
  - vm_compute. reflexivity.
  - vm_compute. intros E. discriminate E.
  - vm_compute. intros E. discriminate E.
  - intros (_ & _ & E). vm_compute in E. discriminate E.
  - vm_compute. reflexivity.
Defined.
